(** * Student admission backend (backend/server.js)

    A shallow embedding of the Express routes of [server.js] over an
    in-memory image of the two Mongoose collections ([users], [courses]).

    - A collection is a finite map from [_id] to the document's fields; a
      document handed back by a query is the pair of its [_id] and fields.
    - Every route is a function from the store and the request to the new
      store and the response ([res.status(..).json(..)]).
    - [save()] runs the validators of the schemas of lines 33-51 and
      rejects the document that fails one; the rejection reaches the
      route's [catch] and becomes the 500 response.
    - An [ObjectId] is the string of its 24 lower-case hexadecimal digits;
      a string of the request becomes one by [castObjectId], as when it is
      pushed onto [coursesApplied] (the cast of Mongoose 8, whose bson
      takes 24 hexadecimal digits and no other string).
    - jsonwebtoken, bcrypt and ECMAScript's string-to-number conversion
      are the fields of [Runtime].
    - [req.body] and [req.files] are what [express.json] and multer have
      parsed; the body of /signup and /login is the record of the fields
      the route destructures.
    - Not modelled: the [timestamps] and [__v] paths of a document, the
      upload directory, a lost database connection, and the interleaving
      of concurrent requests. *)

From Stdlib Require Import QArith Ascii.
From stdpp Require Import base option list strings gmap pretty.

(** ** JavaScript values *)

Module Js.

(** A [Number]: [NaN], a finite value, or an infinity. *)
Inductive number : Type :=
| NaN
| Finite (q : Q)
| PosInfinity
| NegInfinity.

(** [a <= b], also the order of [$lte]; every comparison with [NaN] is
    false. *)
Definition lte (a b : number) : bool :=
  match a, b with
  | NaN, _ | _, NaN => false
  | NegInfinity, _ => true
  | _, PosInfinity => true
  | Finite x, Finite y => Qle_bool x y
  | _, _ => false
  end.

(** The order of the numbers, stated on the rationals. *)
Inductive le : number → number → Prop :=
| le_finite x y : (x <= y)%Q → le (Finite x) (Finite y)
| le_from_neg b : b ≠ NaN → le NegInfinity b
| le_to_pos a : a ≠ NaN → le a PosInfinity.

(** Truthiness of a property that holds a string or is [undefined]:
    [undefined] and the empty string are falsy. *)
Definition truthy (v : option string) : bool :=
  match v with
  | Some s => negb (String.eqb s "")
  | None => false
  end.

(** [s.startsWith(p)] *)
Definition startsWith (s p : string) : bool := String.prefix p s.

(** [s.split(sep)] for a one-character separator. *)
Fixpoint split (sep : ascii) (s : string) : list string :=
  match s with
  | EmptyString => [EmptyString]
  | String c rest =>
      if Ascii.eqb c sep then EmptyString :: split sep rest
      else match split sep rest with
           | w :: ws => String c w :: ws
           | [] => [String c EmptyString]
           end
  end.

End Js.

(** ** Data model (the Mongoose schemas) *)

Abbreviation ObjectId := string.

(** A hexadecimal digit, in lower case. *)
Definition hex_lower (c : ascii) : option ascii :=
  let n := nat_of_ascii c in
  if ((48 <=? n) && (n <=? 57)) || ((97 <=? n) && (n <=? 102)) then Some c
  else if (65 <=? n) && (n <=? 70) then Some (ascii_of_nat (n + 32))
  else None.

Fixpoint hex_string (s : string) : option string :=
  match s with
  | EmptyString => Some EmptyString
  | String c rest =>
      match hex_lower c, hex_string rest with
      | Some c', Some rest' => Some (String c' rest')
      | _, _ => None
      end
  end.

(** The cast of [mongoose.Schema.Types.ObjectId] on a string: a string of
    24 hexadecimal digits is the identifier it spells, in lower case; any
    other string is a [CastError]. *)
Definition castObjectId (s : string) : option ObjectId :=
  if String.length s =? 24 then hex_string s else None.

Module BioData.
Record t : Type := mk {
  name : string;
  age : Js.number;
  specialization : string;
  marks10th : Js.number;
  marks12th : Js.number;
  certificates : list string
}.

(** The [enum] of [specialization]. *)
Definition specializations : list string :=
  ["Accounts"; "Biology"; "Mathematics"; "Computer Science"].

(** A [Number] path takes every number but [NaN]. *)
Definition is_number (n : Js.number) : bool :=
  match n with
  | Js.NaN => false
  | _ => true
  end.

(** The validators of [BioDataSchema]: the five required paths, the
    [enum], the [Number] casts. *)
Definition validate (b : t) : bool :=
  negb (String.eqb (name b) "")
  && is_number (age b)
  && bool_decide (specialization b ∈ specializations)
  && is_number (marks10th b)
  && is_number (marks12th b).
End BioData.

(** The [enum] of [applicationStatus]. *)
Inductive Status : Type :=
| Pending
| UnderReview
| Approved
| Rejected.

Module User.
(** [bioData = None] is the schema default [{}]: a sub-document none of
    whose paths is set. *)
Record t : Type := mk {
  email : string;
  password : string;
  username : string;
  phonenumber : string;
  bioData : option BioData.t;
  coursesApplied : list ObjectId;
  applicationStatus : Status
}.

(** [new User({ email, password, username, phonenumber })]: the other
    paths take their schema defaults. *)
Definition create (email password username phonenumber : string) : t :=
  mk email password username phonenumber None [] Pending.

Definition set_bioData (b : BioData.t) (u : t) : t :=
  mk (email u) (password u) (username u) (phonenumber u) (Some b)
     (coursesApplied u) (applicationStatus u).

(** [coursesApplied.push(c)]: the array casts [c] to an [ObjectId] and
    appends it; [None] is the [CastError] it throws otherwise. *)
Definition push_course (c : string) (u : t) : option t :=
  match castObjectId c with
  | Some i =>
      Some (mk (email u) (password u) (username u) (phonenumber u)
               (bioData u) (coursesApplied u ++ [i]) (applicationStatus u))
  | None => None
  end.

Definition set_applicationStatus (s : Status) (u : t) : t :=
  mk (email u) (password u) (username u) (phonenumber u) (bioData u)
     (coursesApplied u) s.

(** The validators of [UserSchema]: the four required strings, and those
    of [BioDataSchema] on the [bioData] sub-document.  The default [{}]
    has none of the required paths of [BioDataSchema], and fails. *)
Definition validate (u : t) : bool :=
  negb (String.eqb (email u) "")
  && negb (String.eqb (password u) "")
  && negb (String.eqb (username u) "")
  && negb (String.eqb (phonenumber u) "")
  && match bioData u with
     | Some b => BioData.validate b
     | None => false
     end.
End User.

Module Course.
Record t : Type := mk {
  name : string;
  specializationRequired : string;
  minimumMarks : Js.number
}.
End Course.

Record DB : Type := {
  users : gmap ObjectId User.t;
  courses : gmap ObjectId Course.t
}.

Definition with_users (db : DB) (us : gmap ObjectId User.t) : DB :=
  {| users := us; courses := courses db |}.

(** ** Requests and responses *)

Module Jwt.
(** The payload signed at signup and login: [{ id }]. *)
Record payload : Type := { id : ObjectId }.

(** What [jwt.verify(token, secret, callback)] does: it calls back with
    the decoded payload, calls back with an error, or throws. *)
Inductive result : Type :=
| Decoded (p : payload)
| Failed
| Threw.
End Jwt.

(** A file as multer leaves it in [req.files]. *)
Record File : Type := {
  originalname : string;
  filename : string
}.

(** What [upload.array("certificates")] makes of the request: it leaves
    [req.files] undefined when the body is not multipart, sets it to the
    stored files, or ends the request with an error of its own. *)
Inductive Upload : Type :=
| NotMultipart
| Uploaded (stored : list File)
| Refused.

Record Request : Type := {
  headers : gmap string string;
  body : gmap string string;
  files : Upload;
  user : option Jwt.payload
}.

Definition with_user (req : Request) (p : Jwt.payload) : Request :=
  {| headers := headers req; body := body req; files := files req;
     user := Some p |}.

Module SignupBody.
Record t : Type := {
  email : string;
  password : string;
  username : string;
  phonenumber : string
}.
End SignupBody.

Module LoginBody.
Record t : Type := {
  email : string;
  password : string
}.
End LoginBody.

(** An element of [appliedCourses]: the reference as stored, or the course
    document that [populate] put in its place. *)
Inductive CourseRef : Type :=
| Raw (ref : ObjectId)
| Populated (doc : ObjectId * Course.t).

(** The bodies the routes send: the JSON objects of [res.json], and the
    page of Express's own error handler. *)
Inductive Json : Type :=
| Error (error : string)
| Message (message : string)
| Session (message token : string) (user_id : ObjectId)
| BioSaved (message : string) (bio : BioData.t)
| Courses (availableCourses : list (ObjectId * Course.t))
          (appliedCourses : list CourseRef)
| Applied (message : string) (user_doc : ObjectId * User.t)
| ErrorPage.

Record Response : Type := {
  status : nat;
  json : Json
}.

Definition respond (code : nat) (j : Json) : Response :=
  {| status := code; json := j |}.

(** ** The libraries *)

Record Runtime : Type := {
  (** [jwt.sign({ id }, JWT_SECRET, { expiresIn: "1h" })] issued at the
      time [now] *)
  jwt_sign : N → ObjectId → string;
  (** [jwt.verify(token, JWT_SECRET, callback)] when the request is served *)
  jwt_verify : option string → Jwt.result;
  (** [bcrypt.hash(password, 10)] *)
  bcrypt_hash : string → string;
  (** [bcrypt.compare(password, hash)] *)
  bcrypt_compare : string → string → bool;
  (** [Number(s)] on a string *)
  string_to_number : string → Js.number
}.

(** ** Queries and writes *)

Definition findById (db : DB) (i : ObjectId) : option User.t :=
  users db !! i.

(** [User.findOne(filter)]: the first document the filter accepts. *)
Definition findOne (accepts : User.t → bool) (db : DB)
  : option (ObjectId * User.t) :=
  List.find (λ d, accepts d.2) (map_to_list (users db)).

(** [{ $or: [{ email }, { username }] }] *)
Definition email_or_username (e n : string) (u : User.t) : bool :=
  bool_decide (User.email u = e ∨ User.username u = n).

(** [{ email }] *)
Definition by_email (e : string) (u : User.t) : bool :=
  bool_decide (User.email u = e).

(** [{ specializationRequired: s, minimumMarks: { $lte: m } }] *)
Definition eligible (s : string) (m : Js.number) (c : Course.t) : bool :=
  bool_decide (Course.specializationRequired c = s)
  && Js.lte (Course.minimumMarks c) m.

(** [Course.find(filter)] *)
Definition Course_find (db : DB) (s : string) (m : Js.number)
  : list (ObjectId * Course.t) :=
  List.filter (λ d, eligible s m d.2) (map_to_list (courses db)).

(** [.populate("coursesApplied")]: each reference is replaced by the
    course it names; a reference that names no course is dropped. *)
Definition populate (db : DB) (refs : list ObjectId)
  : list (ObjectId * Course.t) :=
  omap (λ i, (λ c, (i, c)) <$> courses db !! i) refs.

(** [doc.save()]: the document is validated against its schema and, if
    it passes, written under its [_id]; [None] is the rejection. *)
Definition save (db : DB) (i : ObjectId) (u : User.t) : option DB :=
  if User.validate u then Some (with_users db (<[i := u]> (users db)))
  else None.

(** [new User(..)] draws an [_id] that no stored user has. *)
Definition newObjectId (db : DB) : ObjectId := fresh (dom (users db)).

Definition internal_error (msg : string) : Response :=
  respond 500 (Error msg).

(** [coursesApplied.includes(courseId)]: the string of the request is
    compared with the lower-case hexadecimal form of each stored
    reference. *)
Definition includes (refs : list ObjectId) (c : string) : bool :=
  bool_decide (c ∈ refs).

Definition bio_incomplete : Response :=
  respond 400
    (Error "Please complete your bio data before applying for courses.").

(** The part GET /courses and GET /user share; [applied] is how the route
    shows [user.coursesApplied]. *)
Definition discover (applied : list ObjectId → list CourseRef)
    (db : DB) (req : Request) : DB * Response :=
  match user req with
  | None => (db, internal_error "Internal server error")
  | Some p =>
      match findById db (Jwt.id p) with
      | None => (db, bio_incomplete)
      | Some u =>
          match User.bioData u with
          | None => (db, bio_incomplete)
          | Some b =>
              if negb (Js.truthy (Some (BioData.specialization b)))
              then (db, bio_incomplete)
              else
                let found :=
                  Course_find db (BioData.specialization b)
                              (BioData.marks12th b) in
                (db, respond 200
                       (Courses found (applied (User.coursesApplied u))))
          end
      end
  end.

(** GET /courses *)
Definition get_courses : DB → Request → DB * Response :=
  λ db, discover (λ refs, Populated <$> populate db refs) db.

(** GET /user *)
Definition get_user : DB → Request → DB * Response :=
  discover (fmap Raw).

(** POST /apply/:courseId *)
Definition apply_param (courseId : string) (db : DB) (req : Request)
  : DB * Response :=
  match user req with
  | None => (db, internal_error "Internal server error")
  | Some p =>
      match findById db (Jwt.id p) with
      | None => (db, respond 404 (Error "User not found"))
      | Some u =>
          match User.push_course courseId u with
          | None => (db, internal_error "Internal server error")
          | Some pushed =>
              let u' := User.set_applicationStatus UnderReview pushed in
              match save db (Jwt.id p) u' with
              | Some db' =>
                  (db', respond 200 (Applied "Course applied successfully"
                                             (Jwt.id p, u')))
              | None => (db, internal_error "Internal server error")
              end
          end
      end
  end.

(** POST /apply-course *)
Definition apply_course (db : DB) (req : Request) : DB * Response :=
  match user req with
  | None => (db, internal_error "Internal server error.")
  | Some p =>
      match findById db (Jwt.id p) with
      | None => (db, respond 404 (Error "User not found."))
      | Some u =>
          let courseId := body req !! "courseId" in
          if negb (Js.truthy courseId)
          then (db, respond 400 (Error "Course ID is required."))
          else if includes (User.coursesApplied u) (default "" courseId)
          then (db, respond 400
                      (Error "You have already applied for this course."))
          else
            match User.push_course (default "" courseId) u with
            | None => (db, internal_error "Internal server error.")
            | Some u' =>
                match save db (Jwt.id p) u' with
                | Some db' =>
                    (db', respond 200
                            (Message "Application submitted successfully!"))
                | None => (db, internal_error "Internal server error.")
                end
            end
      end
  end.

(** [upload.array("certificates")] in front of a handler: when multer
    ends the request with an error, Express's own handler answers 500 and
    the handler does not run. *)
Definition upload_array (handler : DB → Request → DB * Response)
    (db : DB) (req : Request) : DB * Response :=
  match files req with
  | Refused => (db, respond 500 ErrorPage)
  | _ => handler db req
  end.

Section Server.

Context (rt : Runtime).

(** [Number(v)]: [undefined] converts to [NaN]. *)
Definition Number (v : option string) : Js.number :=
  match v with
  | Some s => string_to_number rt s
  | None => Js.NaN
  end.

(** *** The [auth] middleware *)

Definition auth (req : Request) : Response + Request :=
  let authHeader := headers req !! "authorization" in
  if negb (Js.truthy authHeader)
     || negb (Js.startsWith (default "" authHeader) "Bearer ")
  then inl (respond 403 (Error "No token provided or incorrect format"))
  else
    let token := Js.split " "%char (default "" authHeader) !! 1 in
    match jwt_verify rt token with
    | Jwt.Threw => inl (internal_error "Failed to authenticate token")
    | Jwt.Failed => inl (respond 401 (Error "Invalid or expired token"))
    | Jwt.Decoded decoded => inr (with_user req decoded)
    end.

(** A route registered behind [auth]. *)
Definition protected (handler : DB → Request → DB * Response)
    (db : DB) (req : Request) : DB * Response :=
  match auth req with
  | inl res => (db, res)
  | inr req' => handler db req'
  end.

(** *** POST /signup, served at the time [now] *)

Definition signup (now : N) (db : DB) (b : SignupBody.t) : DB * Response :=
  match findOne (email_or_username (SignupBody.email b)
                                   (SignupBody.username b)) db with
  | Some _ => (db, respond 409 (Message "User already exists"))
  | None =>
      let hashedPassword := bcrypt_hash rt (SignupBody.password b) in
      let newUser :=
        User.create (SignupBody.email b) hashedPassword
                    (SignupBody.username b) (SignupBody.phonenumber b) in
      let i := newObjectId db in
      match save db i newUser with
      | Some db' =>
          (db', respond 201
                  (Session "Signup successful" (jwt_sign rt now i) i))
      | None => (db, internal_error "Internal server error")
      end
  end.

(** *** POST /login, served at the time [now] *)

Definition login (now : N) (db : DB) (b : LoginBody.t) : DB * Response :=
  match findOne (by_email (LoginBody.email b)) db with
  | None => (db, respond 400 (Error "User does not exist"))
  | Some (i, u) =>
      if bcrypt_compare rt (LoginBody.password b) (User.password u)
      then (db, respond 200
                  (Session "Login successful" (jwt_sign rt now i) i))
      else (db, respond 400 (Error "Invalid credentials"))
  end.

(** *** POST /bio *)

(** The files of [req.files], none when it is not an array. *)
Definition uploaded (req : Request) : list File :=
  match files req with
  | Uploaded stored => stored
  | _ => []
  end.

(** The object assigned to [user.bioData], [req.files] being an array. *)
Definition bio_of_request (req : Request) : BioData.t :=
  BioData.mk (default "" (body req !! "name"))
             (Number (body req !! "age"))
             (default "" (body req !! "specialization"))
             (Number (body req !! "marks10th"))
             (Number (body req !! "marks12th"))
             (filename <$> uploaded req).

Definition bio (db : DB) (req : Request) : DB * Response :=
  if negb (Js.truthy (body req !! "name"))
     || negb (Js.truthy (body req !! "age"))
     || negb (Js.truthy (body req !! "specialization"))
  then (db, respond 400 (Error "Missing required fields"))
  else
    match user req with
    | None => (db, internal_error "Internal server error")
    | Some p =>
        match findById db (Jwt.id p) with
        | None => (db, respond 404 (Error "User not found"))
        | Some u =>
            match files req with
            | Uploaded _ =>
                let u' := User.set_bioData (bio_of_request req) u in
                match save db (Jwt.id p) u' with
                | Some db' =>
                    (db', respond 200
                            (BioSaved "Bio data uploaded successfully"
                                      (bio_of_request req)))
                | None => (db, internal_error "Internal server error")
                end
            | _ => (db, internal_error "Internal server error")
            end
        end
    end.

(** *** The application *)

Inductive Call : Type :=
| PostSignup (now : N) (b : SignupBody.t)
| PostLogin (now : N) (b : LoginBody.t)
| PostBio (req : Request)
| GetCourses (req : Request)
| GetUser (req : Request)
| PostApply (courseId : string) (req : Request)
| PostApplyCourse (req : Request).

Definition serve (db : DB) (c : Call) : DB * Response :=
  match c with
  | PostSignup now b => signup now db b
  | PostLogin now b => login now db b
  | PostBio req => protected (upload_array bio) db req
  | GetCourses req => protected get_courses db req
  | GetUser req => protected get_user db req
  | PostApply courseId req => protected (apply_param courseId) db req
  | PostApplyCourse req => protected apply_course db req
  end.

(** The stores the server can be in: it starts with no user and a seeded
    catalog, and serves one call after another. *)
Inductive reachable : DB → Prop :=
| reach_start (catalog : gmap ObjectId Course.t) :
    reachable {| users := ∅; courses := catalog |}
| reach_serve (db : DB) (c : Call) :
    reachable db → reachable (serve db c).1.

End Server.

(** ** Predicates on the store *)

(** No two stored users agree on the path [f]. *)
Definition unique_on {A : Type} (f : User.t → A) (db : DB) : Prop :=
  ∀ i j u v,
    users db !! i = Some u → users db !! j = Some v → f u = f v → i = j.

(** The user of the request has no specialization on record: there is no
    such user, or the user has no bio data, or an empty specialization. *)
Definition specialization_unset (db : DB) (p : Jwt.payload) : Prop :=
  match users db !! Jwt.id p with
  | None => True
  | Some u =>
      match User.bioData u with
      | None => True
      | Some b => BioData.specialization b = ""
      end
  end.

(** [u'] is [u] with its credentials untouched. *)
Definition same_credentials (u u' : User.t) : Prop :=
  User.email u' = User.email u ∧
  User.username u' = User.username u ∧
  User.password u' = User.password u.

(** ** The upload storage

    [multer.diskStorage({ destination, filename })].  A file name is a
    string of code units below 256, as multer decodes it. *)

Module storage.

(** The characters [\s] matches among the code units below 256: tab, line
    feed, vertical tab, form feed, carriage return, space and no-break
    space. *)
Definition whitespace (c : ascii) : bool :=
  let n := nat_of_ascii c in
  ((9 <=? n) && (n <=? 13)) || (n =? 32) || (n =? 160).

(** [s.replace(/\s+/g, "-")]: every maximal run of whitespace becomes one
    hyphen.  [in_run] tells that the character before was whitespace. *)
Fixpoint replace_whitespace (in_run : bool) (s : string) : string :=
  match s with
  | EmptyString => EmptyString
  | String c rest =>
      if whitespace c
      then if in_run then replace_whitespace true rest
           else String "-" (replace_whitespace true rest)
      else String c (replace_whitespace false rest)
  end.

Definition destination : string := "uploads/".

(** [`${Date.now()}-${file.originalname.replace(/\s+/g, "-")}`], [now]
    being the milliseconds [Date.now()] returns. *)
Definition filename (now : N) (originalname : string) : string :=
  pretty now +:+ "-" +:+ replace_whitespace false originalname.

End storage.

(** The file multer hands to the route for an upload received at [now]. *)
Definition stored_file (now : N) (original : string) : File :=
  {| originalname := original; filename := storage.filename now original |}.

(** ** What the routes write *)

(** [c] occurs in [s]. *)
Fixpoint occurs (c : ascii) (s : string) : bool :=
  match s with
  | EmptyString => false
  | String c' rest => Ascii.eqb c' c || occurs c rest
  end.

(** The three ways a route rewrites a stored user. *)
Inductive user_update : User.t → User.t → Prop :=
| update_bio b u :
    BioData.name b ≠ "" → BioData.specialization b ≠ "" →
    user_update u (User.set_bioData b u)
| update_apply c u pushed :
    User.push_course c u = Some pushed →
    user_update u (User.set_applicationStatus UnderReview pushed)
| update_apply_course c u pushed :
    User.push_course c u = Some pushed →
    user_update u pushed.

(** What a route behind [auth] does to the store on behalf of [who], the
    payload in [req.user]: nothing, or one rewrite of the user [who]
    names. *)
Definition rewrites (who : option Jwt.payload) (db db' : DB) : Prop :=
  db' = db ∨
  ∃ p u u', who = Some p ∧ users db !! Jwt.id p = Some u ∧
            user_update u u' ∧
            db' = with_users db (<[Jwt.id p := u']> (users db)).

(** A string of decimal digits. *)
Fixpoint decimal (s : string) : bool :=
  match s with
  | EmptyString => true
  | String c rest =>
      let n := nat_of_ascii c in
      (48 <=? n) && (n <=? 57) && decimal rest
  end.

(** No whitespace character occurs in [s]. *)
Definition no_whitespace (s : string) : Prop :=
  ∀ c, storage.whitespace c = true → occurs c s = false.

(** The request of a call to a route behind [auth]. *)
Definition request_of (c : Call) : option Request :=
  match c with
  | PostSignup _ _ | PostLogin _ _ => None
  | PostBio req | GetCourses req | GetUser req
  | PostApply _ req | PostApplyCourse req => Some req
  end.

(** What the routes keep true of a stored user. *)
Definition well_formed (u : User.t) : Prop :=
  (User.applicationStatus u = Pending ∨
   User.applicationStatus u = UnderReview) ∧
  (User.applicationStatus u = UnderReview → User.coursesApplied u ≠ []) ∧
  (∀ b, User.bioData u = Some b →
        BioData.name b ≠ "" ∧ BioData.specialization b ≠ "").

(** ** A runtime and a store to run the routes on *)

Module Sample.

Definition digit (c : ascii) : option Z :=
  let n := Z.of_nat (nat_of_ascii c) in
  if ((48 <=? n) && (n <=? 57))%Z then Some (n - 48)%Z else None.

Fixpoint digits (acc : Z) (s : string) : option Z :=
  match s with
  | EmptyString => Some acc
  | String c rest =>
      match digit c with
      | Some d => digits (10 * acc + d) rest
      | None => None
      end
  end.

(** [Number(s)] on the strings of decimal digits; [Number("")] is 0. *)
Definition to_number (s : string) : Js.number :=
  match digits 0 s with
  | Some z => Js.Finite (inject_Z z)
  | None => Js.NaN
  end.

(** A token is ["t:"], the identifier, a dot and the time of issue; the
    token ["boom"] makes [verify] throw. *)
Definition verify (token : option string) : Jwt.result :=
  match token with
  | Some (String "t" (String ":" rest)) =>
      Jwt.Decoded {| Jwt.id := String.substring 0 24 rest |}
  | Some "boom" => Jwt.Threw
  | _ => Jwt.Failed
  end.

Definition rt : Runtime := {|
  jwt_sign := λ now i, "t:" +:+ i +:+ "." +:+ pretty now;
  jwt_verify := verify;
  bcrypt_hash := λ pw, "$2b$10$" +:+ pw;
  bcrypt_compare := λ pw h, String.eqb ("$2b$10$" +:+ pw) h;
  string_to_number := to_number
|}.

Definition botany_id : ObjectId := "64b7f0c2a1d2e3f4a5b6c701".
Definition genetics_id : ObjectId := "64b7f0c2a1d2e3f4a5b6c702".
Definition algebra_id : ObjectId := "64b7f0c2a1d2e3f4a5b6c703".

(** An identifier that names no course of the catalog. *)
Definition unlisted_id : ObjectId := "64b7f0c2a1d2e3f4a5b6c7ff".

Definition botany : Course.t :=
  Course.mk "Botany" "Biology" (Js.Finite (inject_Z 70)).

Definition genetics : Course.t :=
  Course.mk "Genetics" "Biology" (Js.Finite (inject_Z 90)).

Definition catalog : gmap ObjectId Course.t :=
  list_to_map
    [(botany_id, botany);
     (genetics_id, genetics);
     (algebra_id,
      Course.mk "Algebra" "Mathematics" (Js.Finite (inject_Z 60)))].

Definition alice_signup : SignupBody.t :=
  {| SignupBody.email := "a@x.com"; SignupBody.password := "pw";
     SignupBody.username := "alice"; SignupBody.phonenumber := "555" |}.

(** The store before anyone has signed up. *)
Definition db0 : DB := {| users := ∅; courses := catalog |}.

Definition alice_id : ObjectId := "64b7f0c2a1d2e3f4a5b6c7a1".
Definition carol_id : ObjectId := "64b7f0c2a1d2e3f4a5b6c7a2".

(** An identifier no stored user has. *)
Definition ghost_id : ObjectId := "64b7f0c2a1d2e3f4a5b6c7a9".

Definition alice_payload : Jwt.payload := {| Jwt.id := alice_id |}.

Definition alice_bio : BioData.t :=
  {| BioData.name := "Alice";
     BioData.age := Js.Finite (inject_Z 19);
     BioData.specialization := "Biology";
     BioData.marks10th := Js.Finite (inject_Z 88);
     BioData.marks12th := Js.Finite (inject_Z 80);
     BioData.certificates := ["1600000000000-old.pdf"] |}.

(** alice, with bio data and no application. *)
Definition alice : User.t :=
  User.mk "a@x.com" "$2b$10$pw" "alice" "555" (Some alice_bio) [] Pending.

(** carol, as [new User(..)] makes a user: without bio data. *)
Definition carol : User.t := User.create "c@x.com" "$2b$10$pw3" "carol" "557".

(** A store written with alice and carol in it. *)
Definition db : DB :=
  {| users := <[alice_id := alice]> {[ carol_id := carol ]};
     courses := catalog |}.

Definition bearer (i : ObjectId) : string := "Bearer t:" +:+ i +:+ ".0".

(** A request past [auth] with alice's token. *)
Definition as_alice (fields : list (string * string)) (up : Upload)
  : Request :=
  {| headers := {[ "authorization" := bearer alice_id ]};
     body := list_to_map fields; files := up;
     user := Some alice_payload |}.

(** The same for carol. *)
Definition as_carol (fields : list (string * string)) (up : Upload)
  : Request :=
  {| headers := {[ "authorization" := bearer carol_id ]};
     body := list_to_map fields; files := up;
     user := Some {| Jwt.id := carol_id |} |}.

Definition certificate : File :=
  stored_file 1700000000000 "my cert.pdf".

Definition bio_request : Request :=
  as_alice [("name", "Alice A."); ("age", "20");
            ("specialization", "Mathematics");
            ("marks10th", "90"); ("marks12th", "85")]
           (Uploaded [certificate]).

(** The bio data [bio_request] asks for. *)
Definition new_bio : BioData.t :=
  {| BioData.name := "Alice A.";
     BioData.age := Js.Finite (inject_Z 20);
     BioData.specialization := "Mathematics";
     BioData.marks10th := Js.Finite (inject_Z 90);
     BioData.marks12th := Js.Finite (inject_Z 85);
     BioData.certificates := ["1700000000000-my-cert.pdf"] |}.

(** A second submission, without a file. *)
Definition second_bio_request : Request :=
  as_alice [("name", "Alice"); ("age", "21"); ("specialization", "Accounts");
            ("marks10th", "90"); ("marks12th", "85")]
           (Uploaded []).



(** A bio submission without marks. *)
Definition no_marks_request : Request :=
  as_alice [("name", "Alice"); ("age", "19"); ("specialization", "Biology")]
           (Uploaded []).

(** alice asks for Botany; for a course that is no [ObjectId]. *)
Definition apply_request : Request :=
  as_alice [("courseId", botany_id)] NotMultipart.


(** Botany's identifier spelled with upper-case digits. *)
Definition botany_upper : string := "64B7F0C2A1D2E3F4A5B6C701".


(** carol asks for Botany. *)
Definition carol_request : Request :=
  as_carol [("courseId", botany_id)] NotMultipart.


(** alice after an application for Botany through /apply/:courseId, and
    the store with her so. *)
Definition alice_applied : User.t :=
  User.mk "a@x.com" "$2b$10$pw" "alice" "555" (Some alice_bio) [botany_id]
          UnderReview.

Definition db_applied : DB :=
  with_users db (<[alice_id := alice_applied]> (users db)).

(** alice after an application for a course the catalog does not have. *)
Definition alice_dangling : User.t :=
  User.mk "a@x.com" "$2b$10$pw" "alice" "555" (Some alice_bio)
          [unlisted_id] UnderReview.

Definition db_dangling : DB :=
  with_users db (<[alice_id := alice_dangling]> (users db)).

(** A request before [auth] whose token verifies for an identifier nobody
    has. *)
Definition ghost_request : Request :=
  {| headers := {[ "authorization" := bearer ghost_id ]};
     body := ∅; files := NotMultipart; user := None |}.

(** alice's token followed by more text. *)
Definition trailing_request : Request :=
  {| headers :=
       {[ "authorization" := bearer alice_id +:+ " and more" ]};
     body := ∅; files := NotMultipart; user := None |}.

End Sample.

(** ** Properties *)

(** *** Strings and queries *)

Lemma prefix_app (p s : string) :
  String.prefix p s = true ↔ ∃ t, s = p +:+ t.
Proof.
  revert s. induction p as [|a p IH]; intros s.
  - split; [intros _; by exists s | by destruct s].
  - destruct s as [|b s].
    + split; [done | intros [t Ht]; discriminate].
    + cbn. destruct (Ascii.ascii_dec a b) as [->|Hab].
      * rewrite IH. split; intros [t Ht]; exists t.
        -- by rewrite Ht.
        -- by injection Ht.
      * split; [done | intros [t Ht]; injection Ht; congruence].
Qed.

Lemma split_nonempty (sep : ascii) (s : string) : Js.split sep s ≠ [].
Proof.
  destruct s as [|c s]; simpl; [done |].
  destruct (Ascii.eqb c sep); [done |].
  by destruct (Js.split sep s).
Qed.

(** The token the middleware takes from ["Bearer " ++ t] is [t] up to its
    first space. *)
Lemma bearer_token (t : string) :
  Js.split " " ("Bearer " +:+ t) !! 1 = head (Js.split " " t).
Proof.
  cbv [String.append]. simpl.
  pose proof (split_nonempty " " t) as Hne.
  by destruct (Js.split " " t).
Qed.

Lemma truthy_Some (v : option string) :
  Js.truthy v = true ↔ ∃ s, v = Some s ∧ s ≠ "".
Proof.
  destruct v as [s|]; simpl.
  - rewrite negb_true_iff. destruct (String.eqb_spec s "") as [->|Hs].
    + split; [done | intros (s & [= <-] & Hs); done].
    + split; [intros _; by exists s | done].
  - split; [done | intros (s & Hs & _); done].
Qed.

Lemma findOne_Some accepts db i u :
  findOne accepts db = Some (i, u) → users db !! i = Some u ∧ accepts u = true.
Proof.
  unfold findOne. intros H. apply find_some in H as [Hin Hacc].
  split; [| done].
  by apply elem_of_map_to_list, list_elem_of_In.
Qed.

Lemma findOne_None accepts db :
  findOne accepts db = None ↔
  ∀ i u, users db !! i = Some u → accepts u = false.
Proof.
  unfold findOne. split.
  - intros H i u Hiu.
    apply (find_none _ _ H (i, u)).
    by apply list_elem_of_In, elem_of_map_to_list.
  - intros H. destruct (List.find _ _) as [[i u]|] eqn:Hf; [| done].
    apply findOne_Some in Hf as [Hiu Hacc].
    rewrite (H i u Hiu) in Hacc. discriminate.
Qed.

Lemma newObjectId_fresh db : users db !! newObjectId db = None.
Proof.
  unfold newObjectId. apply (not_elem_of_dom (users db)).
  apply (is_fresh (dom (users db))).
Qed.

Lemma elem_of_Course_find db s m i c :
  (i, c) ∈ Course_find db s m ↔
  courses db !! i = Some c ∧ eligible s m c = true.
Proof.
  unfold Course_find.
  rewrite list_elem_of_In, filter_In, <- list_elem_of_In, elem_of_map_to_list.
  done.
Qed.

Lemma NoDup_Course_find db s m : NoDup (Course_find db s m).
Proof.
  apply NoDup_ListNoDup, List.NoDup_filter, NoDup_ListNoDup, NoDup_map_to_list.
Qed.

Lemma eligible_spec s m c :
  eligible s m c = true ↔
  Course.specializationRequired c = s ∧ Js.lte (Course.minimumMarks c) m = true.
Proof.
  unfold eligible. by rewrite andb_true_iff, bool_decide_eq_true.
Qed.

(** The boolean comparison is the order of the numbers. *)
Lemma lte_le (a b : Js.number) : Js.lte a b = true ↔ Js.le a b.
Proof.
  split.
  - destruct a as [|x| |], b as [|y| |]; simpl; intros H; try done;
      try (by constructor).
    constructor. by apply Qle_bool_iff.
  - intros [x y Hxy | b' Hb | a' Ha]; simpl.
    + by apply Qle_bool_iff.
    + by destruct b'.
    + by destruct a'.
Qed.

(** *** Course discovery *)

(** The two discovery routes never write to the store. *)
Lemma discover_reads applied db req : (discover applied db req).1 = db.
Proof.
  unfold discover.
  repeat (case_match; simpl; try done).
Qed.

Lemma discover_found applied db req p u b :
  user req = Some p → users db !! Jwt.id p = Some u →
  User.bioData u = Some b → BioData.specialization b ≠ "" →
  discover applied db req =
    (db, respond 200
           (Courses (Course_find db (BioData.specialization b)
                                 (BioData.marks12th b))
                    (applied (User.coursesApplied u)))).
Proof.
  intros Hreq Hu Hb Hs. unfold discover, findById. rewrite Hreq, Hu, Hb.
  assert (Js.truthy (Some (BioData.specialization b)) = true) as ->
    by (apply truthy_Some; eauto).
  done.
Qed.

(** C1. For a user whose [bioData.specialization] is set, GET /courses and
    GET /user answer 200 with, as [availableCourses], exactly the catalog
    courses whose [specializationRequired] is the user's specialization and
    whose [minimumMarks] is at most the user's [marks12th], each once: for
    finite marks that is the order of the rationals.  The store is left as
    it was, so that asking again gives the same answer. *)
Theorem discovery_exact (db : DB) (req : Request) (p : Jwt.payload)
    (u : User.t) (b : BioData.t)
    (route : DB → Request → DB * Response)
    (Hroute : route = get_courses ∨ route = get_user)
    (Hreq : user req = Some p)
    (Hu : users db !! Jwt.id p = Some u)
    (Hb : User.bioData u = Some b)
    (Hs : BioData.specialization b ≠ "") :
  ∃ available applied,
    route db req = (db, respond 200 (Courses available applied)) ∧
    (∀ i c, (i, c) ∈ available ↔
            courses db !! i = Some c ∧
            Course.specializationRequired c = BioData.specialization b ∧
            Js.le (Course.minimumMarks c) (BioData.marks12th b)) ∧
    (∀ i c x y,
       Course.minimumMarks c = Js.Finite x →
       BioData.marks12th b = Js.Finite y →
       ((i, c) ∈ available ↔
        courses db !! i = Some c ∧
        Course.specializationRequired c = BioData.specialization b ∧
        (x <= y)%Q)) ∧
    NoDup available ∧
    route (route db req).1 req = route db req.
Proof.
  exists (Course_find db (BioData.specialization b) (BioData.marks12th b)).
  assert (Hiff : ∀ i c,
    (i, c) ∈ Course_find db (BioData.specialization b) (BioData.marks12th b) ↔
    courses db !! i = Some c ∧
    Course.specializationRequired c = BioData.specialization b ∧
    Js.le (Course.minimumMarks c) (BioData.marks12th b)).
  { intros i c. by rewrite elem_of_Course_find, eligible_spec, lte_le. }
  assert (Hfin : ∀ i c x y,
    Course.minimumMarks c = Js.Finite x →
    BioData.marks12th b = Js.Finite y →
    ((i, c) ∈ Course_find db (BioData.specialization b) (BioData.marks12th b) ↔
     courses db !! i = Some c ∧
     Course.specializationRequired c = BioData.specialization b ∧
     (x <= y)%Q)).
  { intros i c x y Hx Hy. rewrite Hiff, Hx, Hy.
    split; intros (Hc & Hsp & Hle); repeat split; try done.
    - by inversion Hle.
    - by constructor. }
  destruct Hroute as [-> | ->].
  - exists (Populated <$> populate db (User.coursesApplied u)).
    assert (Heq := discover_found
      (λ refs, Populated <$> populate db refs) db req p u b Hreq Hu Hb Hs).
    fold (get_courses db req) in Heq.
    split; [done |]. split; [done |]. split; [done |].
    split; [apply NoDup_Course_find | by rewrite Heq].
  - exists (Raw <$> User.coursesApplied u).
    assert (Heq := discover_found (fmap Raw) db req p u b Hreq Hu Hb Hs).
    fold (get_user db req) in Heq.
    split; [done |]. split; [done |]. split; [done |].
    split; [apply NoDup_Course_find | by rewrite Heq].
Qed.

(** *** The [auth] middleware *)

(** The header as the middleware requires it: ["Bearer "] and then [t]. *)
Lemma bearer_header (h : option string) :
  Js.truthy h && Js.startsWith (default "" h) "Bearer " = true ↔
  ∃ t, h = Some ("Bearer " +:+ t).
Proof.
  rewrite andb_true_iff, truthy_Some. unfold Js.startsWith.
  rewrite prefix_app. split.
  - intros ((s & -> & _) & t & Ht). simpl in Ht. exists t. by rewrite Ht.
  - intros (t & ->). simpl. split; [| by exists t].
    eexists. split; [done | done].
Qed.

(** What the middleware does with a header ["Bearer " ++ t]. *)
Lemma auth_bearer (rt : Runtime) (req : Request) (t : string) :
  headers req !! "authorization" = Some ("Bearer " +:+ t) →
  auth rt req =
    match jwt_verify rt (head (Js.split " " t)) with
    | Jwt.Threw => inl (internal_error "Failed to authenticate token")
    | Jwt.Failed => inl (respond 401 (Error "Invalid or expired token"))
    | Jwt.Decoded decoded => inr (with_user req decoded)
    end.
Proof.
  intros Ht. unfold auth.
  assert (Hb : Js.truthy (headers req !! "authorization")
               && Js.startsWith (default "" (headers req !! "authorization"))
                                "Bearer " = true)
    by (apply bearer_header; eauto).
  apply andb_true_iff in Hb as [-> ->]. simpl.
  rewrite Ht.
  change (default "" (Some ("Bearer " +:+ t))) with ("Bearer " +:+ t).
  by rewrite bearer_token.
Qed.

(** C5. The middleware answers 403 exactly when the Authorization header
    is absent or does not start with ["Bearer "].  On a header
    ["Bearer " ++ t] it hands the token (the text of [t] up to its first
    space) to [jwt.verify]: it answers 401 when verification reports an
    error, 500 when verification throws, and otherwise lets the request
    through with the decoded payload attached as [req.user].  Every refusal
    falls in exactly one of the three classes. *)
Theorem auth_classes (rt : Runtime) (req : Request) :
  let h := headers req !! "authorization" in
  let no_bearer := ∀ t, h ≠ Some ("Bearer " +:+ t) in
  let verdict := λ t, jwt_verify rt (head (Js.split " " t)) in
  (no_bearer ↔
   auth rt req =
     inl (respond 403 (Error "No token provided or incorrect format"))) ∧
  (∀ t, h = Some ("Bearer " +:+ t) →
     match verdict t with
     | Jwt.Failed =>
         auth rt req = inl (respond 401 (Error "Invalid or expired token"))
     | Jwt.Threw =>
         auth rt req = inl (respond 500 (Error "Failed to authenticate token"))
     | Jwt.Decoded decoded =>
         auth rt req = inr (with_user req decoded) ∧
         user (with_user req decoded) = Some decoded
     end) ∧
  (∀ res, auth rt req = inl res →
     (status res = 403 ∧ no_bearer) ∨
     (status res = 401 ∧ ∃ t, h = Some ("Bearer " +:+ t) ∧
                              verdict t = Jwt.Failed) ∨
     (status res = 500 ∧ ∃ t, h = Some ("Bearer " +:+ t) ∧
                              verdict t = Jwt.Threw)) ∧
  ¬ (no_bearer ∧ ∃ t, h = Some ("Bearer " +:+ t)) ∧
  (∀ t, h = Some ("Bearer " +:+ t) →
        ¬ (verdict t = Jwt.Failed ∧ verdict t = Jwt.Threw)).
Proof.
  intros h no_bearer verdict.
  assert (Hbearer : ∀ t, h = Some ("Bearer " +:+ t) →
    auth rt req =
      match verdict t with
      | Jwt.Threw => inl (internal_error "Failed to authenticate token")
      | Jwt.Failed => inl (respond 401 (Error "Invalid or expired token"))
      | Jwt.Decoded decoded => inr (with_user req decoded)
      end) by apply auth_bearer.
  assert (Hnone : no_bearer →
    auth rt req =
      inl (respond 403 (Error "No token provided or incorrect format"))).
  { intros Hno. unfold auth. fold h.
    destruct (Js.truthy h && Js.startsWith (default "" h) "Bearer ") eqn:Hb.
    - apply bearer_header in Hb as [t Ht]. by destruct (Hno t).
    - apply andb_false_iff in Hb as [-> | ->]; simpl; [done |].
      by rewrite orb_true_r. }
  assert (Hcases : no_bearer ∨ ∃ t, h = Some ("Bearer " +:+ t)).
  { destruct (Js.truthy h && Js.startsWith (default "" h) "Bearer ") eqn:Hb.
    - right. by apply bearer_header.
    - left. intros t Ht.
      assert (Js.truthy h && Js.startsWith (default "" h) "Bearer " = true)
        by (apply bearer_header; eauto).
      congruence. }
  split; [| split; [| split; [| split]]].
  - split; [exact Hnone |].
    intros H403 t Ht. rewrite (Hbearer t Ht) in H403.
    by destruct (verdict t).
  - intros t Ht. rewrite (Hbearer t Ht). by destruct (verdict t).
  - intros res Hres. destruct Hcases as [Hno | [t Ht]].
    + left. rewrite (Hnone Hno) in Hres. by injection Hres as <-.
    + right. rewrite (Hbearer t Ht) in Hres.
      destruct (verdict t) eqn:Hv; [done | left | right];
        injection Hres as <-; (split; [done | by exists t]).
  - intros (Hno & t & Ht). by destruct (Hno t).
  - intros t _ [Hf Ht]. congruence.
Qed.


(** *** Writes *)

Lemma save_Some db i u db' :
  save db i u = Some db' →
  User.validate u = true ∧ db' = with_users db (<[i := u]> (users db)).
Proof. unfold save. case_match; [| done]. by intros [= <-]. Qed.


Lemma save_invalid db i u : User.validate u = false → save db i u = None.
Proof. unfold save. by intros ->. Qed.

(** A document made by [new User(..)] fails the schema: its [bioData] is
    the default [{}]. *)
Lemma create_invalid e pw n ph : User.validate (User.create e pw n ph) = false.
Proof. unfold User.validate. simpl. by rewrite andb_false_r. Qed.


Lemma push_course_Some c u pushed :
  User.push_course c u = Some pushed →
  ∃ i, castObjectId c = Some i ∧
       pushed = User.mk (User.email u) (User.password u) (User.username u)
                        (User.phonenumber u) (User.bioData u)
                        (User.coursesApplied u ++ [i])
                        (User.applicationStatus u).
Proof.
  unfold User.push_course. destruct (castObjectId c) as [i|]; [| done].
  intros [= <-]. by exists i.
Qed.




(** Only a string of 24 characters casts. *)
Lemma castObjectId_length c i : castObjectId c = Some i → String.length c = 24.
Proof.
  unfold castObjectId. destruct (Nat.eqb_spec (String.length c) 24); done.
Qed.


(** *** POST /bio *)

(** The route once the three required fields are there and the user is
    found. *)
Lemma bio_found rt db req p u :
  Js.truthy (body req !! "name") = true →
  Js.truthy (body req !! "age") = true →
  Js.truthy (body req !! "specialization") = true →
  user req = Some p → users db !! Jwt.id p = Some u →
  bio rt db req =
    match files req with
    | Uploaded _ =>
        match save db (Jwt.id p)
                   (User.set_bioData (bio_of_request rt req) u) with
        | Some db' =>
            (db', respond 200 (BioSaved "Bio data uploaded successfully"
                                        (bio_of_request rt req)))
        | None => (db, respond 500 (Error "Internal server error"))
        end
    | _ => (db, respond 500 (Error "Internal server error"))
    end.
Proof.
  intros Hn Ha Hs Hreq Hu. unfold bio, findById.
  rewrite Hn, Ha, Hs, Hreq, Hu. simpl. by destruct (files req).
Qed.


(** A document whose marks are [NaN] fails the schema. *)
Lemma nan_marks_invalid b u :
  BioData.marks10th b = Js.NaN ∨ BioData.marks12th b = Js.NaN →
  User.validate (User.set_bioData b u) = false.
Proof.
  intros H. unfold User.validate, BioData.validate. simpl.
  destruct H as [-> | ->]; simpl; by rewrite ?andb_false_r.
Qed.

(** C7. A submission that has [name], [age] and [specialization] but lacks
    [marks10th] or [marks12th] is never answered 400: [Number] turns the
    absent field into [NaN], and for a stored user the route goes on to
    [save] the document that holds that [NaN]; the [save] rejects it and
    the answer is 500, the store left as it was. *)
Theorem bio_marks_not_validated (rt : Runtime) (db : DB) (req : Request)
    (Hname : Js.truthy (body req !! "name") = true)
    (Hage : Js.truthy (body req !! "age") = true)
    (Hspec : Js.truthy (body req !! "specialization") = true)
    (Hmarks : body req !! "marks10th" = None ∨
              body req !! "marks12th" = None) :
  let b := bio_of_request rt req in
  status (bio rt db req).2 ≠ 400 ∧
  (body req !! "marks10th" = None → BioData.marks10th b = Js.NaN) ∧
  (body req !! "marks12th" = None → BioData.marks12th b = Js.NaN) ∧
  (∀ p u, user req = Some p → users db !! Jwt.id p = Some u →
     let u' := User.set_bioData b u in
     User.bioData u' = Some b ∧
     (∀ stored, files req = Uploaded stored →
        bio rt db req =
          match save db (Jwt.id p) u' with
          | Some db' =>
              (db', respond 200
                      (BioSaved "Bio data uploaded successfully" b))
          | None => (db, respond 500 (Error "Internal server error"))
          end) ∧
     save db (Jwt.id p) u' = None ∧
     bio rt db req = (db, respond 500 (Error "Internal server error"))).
Proof.
  intros b.
  assert (H10 : body req !! "marks10th" = None → BioData.marks10th b = Js.NaN).
  { intros H. unfold b, bio_of_request. simpl. by rewrite H. }
  assert (H12 : body req !! "marks12th" = None → BioData.marks12th b = Js.NaN).
  { intros H. unfold b, bio_of_request. simpl. by rewrite H. }
  assert (Hsave : ∀ i u, save db i (User.set_bioData b u) = None).
  { intros i u. apply save_invalid, nan_marks_invalid.
    destruct Hmarks as [H | H]; [left; by apply H10 | right; by apply H12]. }
  assert (Hfound : ∀ p u, user req = Some p → users db !! Jwt.id p = Some u →
    bio rt db req = (db, respond 500 (Error "Internal server error"))).
  { intros p u Hreq Hu.
    rewrite (bio_found rt db req p u Hname Hage Hspec Hreq Hu).
    fold b. rewrite Hsave. by destruct (files req). }
  split; [| split; [done | split; [done |]]].
  - unfold bio. rewrite Hname, Hage, Hspec. simpl.
    destruct (user req) as [p|] eqn:Hreq; [| simpl; lia].
    unfold findById. destruct (users db !! Jwt.id p) as [u|] eqn:Hu;
      [| simpl; lia].
    destruct (files req); [simpl; lia | | simpl; lia].
    fold b. rewrite Hsave. simpl. lia.
  - intros p u Hreq Hu u'. split; [done |]. split; [| split].
    + intros stored Hfiles.
      rewrite (bio_found rt db req p u Hname Hage Hspec Hreq Hu), Hfiles.
      done.
    + apply Hsave.
    + by apply (Hfound p u).
Qed.

(** *** GET /courses against GET /user *)

Lemma elem_of_populate db refs i c :
  (i, c) ∈ populate db refs ↔ i ∈ refs ∧ courses db !! i = Some c.
Proof.
  unfold populate. rewrite list_elem_of_omap. split.
  - intros (j & Hj & Hc). destruct (courses db !! j) as [c'|] eqn:Hl; [| done].
    simpl in Hc. by injection Hc as <- <-.
  - intros [Hi Hc]. exists i. split; [done |]. by rewrite Hc.
Qed.

Lemma discover_cases applied db req :
  (user req = None ∧
   discover applied db req = (db, respond 500 (Error "Internal server error")))
  ∨ (∃ p, user req = Some p ∧ specialization_unset db p ∧
          discover applied db req = (db, bio_incomplete))
  ∨ (∃ p u b, user req = Some p ∧ users db !! Jwt.id p = Some u ∧
              User.bioData u = Some b ∧ BioData.specialization b ≠ "" ∧
              discover applied db req =
                (db, respond 200
                       (Courses (Course_find db (BioData.specialization b)
                                             (BioData.marks12th b))
                                (applied (User.coursesApplied u))))).
Proof.
  unfold discover, findById, specialization_unset.
  destruct (user req) as [p|]; [right | by left].
  destruct (users db !! Jwt.id p) as [u|] eqn:Hu.
  2: { left. exists p. by rewrite Hu. }
  destruct (User.bioData u) as [b|] eqn:Hb.
  2: { left. exists p. by rewrite Hu, Hb. }
  destruct (Js.truthy (Some (BioData.specialization b))) eqn:Ht; simpl.
  - right. exists p, u, b. repeat split; try done.
    apply truthy_Some in Ht as (s & [= <-] & Hs). done.
  - left. exists p. rewrite Hu, Hb. repeat split; try done.
    simpl in Ht. apply negb_false_iff in Ht. by apply String.eqb_eq.
Qed.

(** C8. On the same store and request GET /courses and GET /user leave the
    store as it is and answer alike: both 400 with the bio-incomplete error
    when the user has no specialization on record, and otherwise both 200
    with the same [availableCourses], the result of the one eligibility
    query.  The two answers differ in [appliedCourses] only: /courses sends
    for each reference of [coursesApplied] the catalog course it names,
    /user sends the references themselves. *)
Theorem discovery_routes_agree (db : DB) (req : Request) :
  (user req = None ∧
   get_courses db req = (db, respond 500 (Error "Internal server error")) ∧
   get_user db req = (db, respond 500 (Error "Internal server error")))
  ∨ (∃ p, user req = Some p ∧ specialization_unset db p ∧
          get_courses db req =
            (db, respond 400 (Error
              "Please complete your bio data before applying for courses.")) ∧
          get_user db req =
            (db, respond 400 (Error
              "Please complete your bio data before applying for courses.")))
  ∨ (∃ p u b available populated,
       user req = Some p ∧ users db !! Jwt.id p = Some u ∧
       User.bioData u = Some b ∧ BioData.specialization b ≠ "" ∧
       available = Course_find db (BioData.specialization b)
                               (BioData.marks12th b) ∧
       (∀ i c, (i, c) ∈ populated ↔
               i ∈ User.coursesApplied u ∧ courses db !! i = Some c) ∧
       get_courses db req =
         (db, respond 200 (Courses available (Populated <$> populated))) ∧
       get_user db req =
         (db, respond 200 (Courses available
                                   (Raw <$> User.coursesApplied u)))).
Proof.
  unfold get_courses, get_user.
  destruct (discover_cases (fmap Raw) db req)
    as [[Hnone Hraw] | [(p & Hp & Hunset & Hraw) | (p & u & b & Hp & Hu & Hb & Hs & Hraw)]].
  - left. split; [done |]. split; [| done].
    unfold discover. by rewrite Hnone.
  - right; left. exists p. split; [done |]. split; [done |]. split; [| done].
    destruct (discover_cases (λ refs, Populated <$> populate db refs) db req)
      as [[Hnone _] | [(p' & Hp' & _ & Hpop) | (p' & u' & b' & Hp' & Hu' & Hb' & Hs' & _)]];
      [congruence | done |].
    exfalso. unfold specialization_unset in Hunset.
    assert (p' = p) as -> by congruence.
    rewrite Hu', Hb' in Hunset. done.
  - right; right.
    exists p, u, b, (Course_find db (BioData.specialization b)
                                 (BioData.marks12th b)),
           (populate db (User.coursesApplied u)).
    repeat (split; [done |]).
    split; [intros i c; apply elem_of_populate |].
    split; [| done].
    unfold discover, findById. rewrite Hp, Hu, Hb.
    assert (Js.truthy (Some (BioData.specialization b)) = true) as ->
      by (apply truthy_Some; eauto).
    done.
Qed.

(** C9. A request to GET /courses or GET /user whose bearer token verifies
    but whose identifier names no stored user is answered 400 with the
    bio-incomplete error, not 404; it is the very answer given for a stored
    user who has submitted no bio data. *)
Theorem unknown_user_is_bio_incomplete (rt : Runtime) (db : DB)
    (req : Request) (t : string) (p : Jwt.payload)
    (Hheader : headers req !! "authorization" = Some ("Bearer " +:+ t))
    (Hvalid : jwt_verify rt (head (Js.split " " t)) = Jwt.Decoded p)
    (Hunknown : users db !! Jwt.id p = None) :
  let incomplete :=
    respond 400
      (Error "Please complete your bio data before applying for courses.") in
  serve rt db (GetCourses req) = (db, incomplete) ∧
  serve rt db (GetUser req) = (db, incomplete) ∧
  status (serve rt db (GetCourses req)).2 ≠ 404 ∧
  status (serve rt db (GetUser req)).2 ≠ 404 ∧
  (∀ db' u, users db' !! Jwt.id p = Some u → User.bioData u = None →
     (serve rt db' (GetCourses req)).2 = (serve rt db (GetCourses req)).2 ∧
     (serve rt db' (GetUser req)).2 = (serve rt db (GetUser req)).2).
Proof.
  intros incomplete.
  assert (Hauth : auth rt req = inr (with_user req p)).
  { by rewrite (auth_bearer rt req t Hheader), Hvalid. }
  assert (Hc : ∀ db0, serve rt db0 (GetCourses req)
                      = get_courses db0 (with_user req p)).
  { intros db0. simpl. unfold protected. by rewrite Hauth. }
  assert (Hu : ∀ db0, serve rt db0 (GetUser req)
                      = get_user db0 (with_user req p)).
  { intros db0. simpl. unfold protected. by rewrite Hauth. }
  assert (H1 : get_courses db (with_user req p) = (db, incomplete)).
  { unfold get_courses, discover, findById. simpl. by rewrite Hunknown. }
  assert (H2 : get_user db (with_user req p) = (db, incomplete)).
  { unfold get_user, discover, findById. simpl. by rewrite Hunknown. }
  rewrite !Hc, !Hu, H1, H2.
  split; [done |]. split; [done |]. split; [simpl; lia |].
  split; [simpl; lia |].
  intros db' u Hu' Hbio. rewrite !Hc, !Hu.
  unfold get_courses, get_user, discover, findById. simpl.
  by rewrite Hu', Hbio.
Qed.

(** *** POST /apply/:courseId *)

Lemma apply_param_found (courseId : string) (db : DB)
    (req : Request) (p : Jwt.payload) (u : User.t) :
  user req = Some p → users db !! Jwt.id p = Some u →
  apply_param courseId db req =
    match User.push_course courseId u with
    | None => (db, respond 500 (Error "Internal server error"))
    | Some pushed =>
        let u' := User.set_applicationStatus UnderReview pushed in
        match save db (Jwt.id p) u' with
        | Some db' =>
            (db', respond 200 (Applied "Course applied successfully"
                                       (Jwt.id p, u')))
        | None => (db, respond 500 (Error "Internal server error"))
        end
    end.
Proof. intros Hreq Hu. unfold apply_param, findById. by rewrite Hreq, Hu. Qed.


(** C10. When POST /apply/:courseId answers 200, the [user] of the answer
    is the user document as it is now stored, with every path of the
    stored user but [coursesApplied] and [applicationStatus] as it was; its
    [password] path is the password hash stored for that user, the bcrypt
    hash of the password when that is what is stored. *)
Theorem apply_param_discloses_hash (db db' : DB)
    (req : Request) (courseId : string) (res : Response)
    (Hcall : apply_param courseId db req = (db', res))
    (Hok : status res = 200) :
  ∃ p u u0,
    user req = Some p ∧
    json res = Applied "Course applied successfully" (Jwt.id p, u) ∧
    users db' !! Jwt.id p = Some u ∧
    users db !! Jwt.id p = Some u0 ∧
    User.password u = User.password u0 ∧
    User.email u = User.email u0 ∧
    User.username u = User.username u0 ∧
    User.phonenumber u = User.phonenumber u0 ∧
    User.bioData u = User.bioData u0 ∧
    (∀ rt pw, User.password u0 = bcrypt_hash rt pw →
              User.password u = bcrypt_hash rt pw).
Proof.
  destruct (user req) as [p|] eqn:Hreq.
  2: { unfold apply_param in Hcall. rewrite Hreq in Hcall.
       injection Hcall as <- <-. done. }
  destruct (users db !! Jwt.id p) as [u0|] eqn:Hu.
  2: { unfold apply_param, findById in Hcall. rewrite Hreq, Hu in Hcall.
       injection Hcall as <- <-. done. }
  rewrite (apply_param_found courseId db req p u0 Hreq Hu) in Hcall.
  destruct (User.push_course courseId u0) as [pushed|] eqn:Hpush.
  2: { injection Hcall as <- <-. done. }
  simpl in Hcall. destruct (save db _ _) as [db1|] eqn:Hsave.
  2: { injection Hcall as <- <-. done. }
  apply save_Some in Hsave as [_ ->]. injection Hcall as <- <-.
  apply push_course_Some in Hpush as (i & _ & ->).
  eexists p, _, u0. repeat split; try done.
  simpl. apply lookup_insert_eq.
Qed.

(** *** POST /apply-course *)

Lemma apply_course_found db req p u c :
  user req = Some p → users db !! Jwt.id p = Some u →
  body req !! "courseId" = Some c → c ≠ "" →
  apply_course db req =
    if includes (User.coursesApplied u) c
    then (db, respond 400 (Error "You have already applied for this course."))
    else
      match User.push_course c u with
      | None => (db, respond 500 (Error "Internal server error."))
      | Some u' =>
          match save db (Jwt.id p) u' with
          | Some db' =>
              (db', respond 200
                      (Message "Application submitted successfully!"))
          | None => (db, respond 500 (Error "Internal server error."))
          end
      end.
Proof.
  intros Hreq Hu Hc Hne. unfold apply_course, findById.
  rewrite Hreq, Hu, Hc.
  assert (Js.truthy (Some c) = true) as -> by (apply truthy_Some; eauto).
  done.
Qed.


(** ** More on the routes *)

(** *** What one call does to the store *)

Section Effects.

Context (rt : Runtime).

Lemma truthy_default (v : option string) :
  Js.truthy v = true → v = Some (default "" v) ∧ default "" v ≠ "".
Proof. intros (s & -> & Hs)%truthy_Some. done. Qed.

(** A signup is answered 409 or 500; either way it writes nothing. *)
Lemma signup_answer now db b :
  signup rt now db b = (db, respond 409 (Message "User already exists")) ∨
  (findOne (email_or_username (SignupBody.email b) (SignupBody.username b)) db
     = None ∧
   signup rt now db b = (db, respond 500 (Error "Internal server error"))).
Proof.
  unfold signup. destruct (findOne _ db); [by left |]. right.
  split; [done |]. by rewrite save_invalid by apply create_invalid.
Qed.

Lemma signup_unchanged now db b : (signup rt now db b).1 = db.
Proof. by destruct (signup_answer now db b) as [-> | [_ ->]]. Qed.

Lemma login_step now db b : (login rt now db b).1 = db.
Proof. unfold login. repeat (case_match; simpl; try done). Qed.

Lemma bio_rewrites db req : rewrites (user req) db (bio rt db req).1.
Proof.
  unfold bio, findById.
  destruct (Js.truthy (body req !! "name")) eqn:Hn; [| by left].
  destruct (Js.truthy (body req !! "age")) eqn:Ha; [| by left].
  destruct (Js.truthy (body req !! "specialization")) eqn:Hs; [| by left].
  simpl. destruct (user req) as [p|]; [| by left].
  destruct (users db !! Jwt.id p) as [u|] eqn:Hu; [| by left].
  destruct (files req); [by left | | by left].
  destruct (save db _ _) as [db'|] eqn:Hsave; [| by left].
  apply save_Some in Hsave as [_ ->]. simpl.
  right. exists p, u, (User.set_bioData (bio_of_request rt req) u).
  repeat split; try done.
  apply update_bio; simpl; by apply truthy_default.
Qed.

Lemma upload_array_rewrites handler db req :
  rewrites (user req) db (handler db req).1 →
  rewrites (user req) db (upload_array handler db req).1.
Proof. unfold upload_array. destruct (files req); try done. by left. Qed.

Lemma apply_param_rewrites c db req :
  rewrites (user req) db (apply_param c db req).1.
Proof.
  unfold apply_param, findById.
  destruct (user req) as [p|]; [| by left].
  destruct (users db !! Jwt.id p) as [u|] eqn:Hu; [| by left].
  destruct (User.push_course c u) as [pushed|] eqn:Hpush; [| by left].
  simpl. destruct (save db _ _) as [db'|] eqn:Hsave; [| by left].
  apply save_Some in Hsave as [_ ->]. simpl.
  right. eexists p, u, _. repeat split; try done.
  by apply (update_apply c).
Qed.

Lemma apply_course_rewrites db req :
  rewrites (user req) db (apply_course db req).1.
Proof.
  unfold apply_course, findById.
  destruct (user req) as [p|]; [| by left].
  destruct (users db !! Jwt.id p) as [u|] eqn:Hu; [| by left].
  destruct (Js.truthy (body req !! "courseId")) eqn:Hc; [| by left].
  simpl. destruct (includes _ _); [by left |].
  destruct (User.push_course _ u) as [pushed|] eqn:Hpush; [| by left].
  destruct (save db _ _) as [db'|] eqn:Hsave; [| by left].
  apply save_Some in Hsave as [_ ->]. simpl.
  right. eexists p, u, _. repeat split; try done.
  by apply (update_apply_course (default "" (body req !! "courseId"))).
Qed.

Lemma discover_rewrites applied db req :
  rewrites (user req) db (discover applied db req).1.
Proof. left. apply discover_reads. Qed.

(** What [auth] lets through is the request with a payload attached. *)
Lemma auth_passes req req' :
  auth rt req = inr req' → ∃ p, req' = with_user req p.
Proof.
  unfold auth. case_match; [done |].
  destruct (jwt_verify rt _) as [p| |]; [| done | done].
  intros [= <-]. by exists p.
Qed.

(** A route behind [auth] rewrites at most the user of the verified
    token. *)
Lemma protected_rewrites handler db req :
  (∀ req', rewrites (user req') db (handler db req').1) →
  db = (protected rt handler db req).1 ∨
  ∃ p, auth rt req = inr (with_user req p) ∧
       rewrites (Some p) db (protected rt handler db req).1.
Proof.
  intros H. unfold protected. destruct (auth rt req) as [res|req'] eqn:Hauth.
  - by left.
  - right. destruct (auth_passes req req' Hauth) as [p ->].
    exists p. split; [done |]. apply (H (with_user req p)).
Qed.

(** The calls behind [auth], with the handler each one runs. *)
Lemma serve_protected db c req :
  request_of c = Some req →
  ∃ handler, serve rt db c = protected rt handler db req ∧
             ∀ req', rewrites (user req') db (handler db req').1.
Proof.
  destruct c; simpl; intros [= <-].
  - exists (upload_array (bio rt)). split; [done |].
    intros req'. apply upload_array_rewrites, bio_rewrites.
  - exists get_courses. split; [done |].
    intros req'. apply discover_rewrites.
  - exists get_user. split; [done |].
    intros req'. apply discover_rewrites.
  - exists (apply_param courseId). split; [done | apply apply_param_rewrites].
  - exists apply_course. split; [done | apply apply_course_rewrites].
Qed.

(** Every call leaves the store as it was or rewrites one stored user. *)
Lemma serve_rewrites db c :
  (serve rt db c).1 = db ∨
  ∃ i u u', users db !! i = Some u ∧ user_update u u' ∧
            (serve rt db c).1 = with_users db (<[i := u']> (users db)).
Proof.
  destruct (request_of c) as [req|] eqn:Hreq.
  - destruct (serve_protected db c req Hreq) as (handler & -> & Hh).
    destruct (protected_rewrites handler db req Hh)
      as [<- | (p & _ & [-> | (q & u & u' & _ & Hu & Hupd & ->)])];
      [by left | by left |].
    right. by exists (Jwt.id q), u, u'.
  - left. destruct c; try done; simpl.
    + apply signup_unchanged.
    + apply login_step.
Qed.

Lemma user_update_keeps u u' :
  user_update u u' →
  same_credentials u u' ∧
  User.phonenumber u' = User.phonenumber u ∧
  User.coursesApplied u `prefix_of` User.coursesApplied u'.
Proof.
  intros [b u0 _ _ | c u0 pushed Hpush | c u0 pushed Hpush].
  - done.
  - apply push_course_Some in Hpush as (i & _ & ->). simpl.
    split; [done |]. split; [done |]. by apply prefix_app_r.
  - apply push_course_Some in Hpush as (i & _ & ->). simpl.
    split; [done |]. split; [done |]. by apply prefix_app_r.
Qed.

Lemma user_update_well_formed u u' :
  user_update u u' → well_formed u → well_formed u'.
Proof.
  intros [b u0 Hn Hs | c u0 pushed Hpush | c u0 pushed Hpush]
         (Hst & Hur & Hbio); unfold well_formed.
  - simpl. split; [done |]. split; [done |]. by intros ? [= <-].
  - apply push_course_Some in Hpush as (i & _ & ->). simpl.
    split; [by right |]. split; [| done].
    intros _ Heq. by apply app_eq_nil in Heq as [_ ?].
  - apply push_course_Some in Hpush as (i & _ & ->). simpl.
    split; [done |]. split; [| done].
    intros _ Heq. by apply app_eq_nil in Heq as [_ ?].
Qed.

End Effects.

(** *** Writes and answers *)

Lemma bio_refused rt db req :
  status (bio rt db req).2 ≠ 200 → (bio rt db req).1 = db.
Proof.
  unfold bio. repeat (case_match; simpl; try done).
Qed.

Lemma apply_param_refused c db req :
  status (apply_param c db req).2 ≠ 200 → (apply_param c db req).1 = db.
Proof.
  unfold apply_param. repeat (case_match; simpl; try done).
Qed.

Lemma apply_course_refused db req :
  status (apply_course db req).2 ≠ 200 → (apply_course db req).1 = db.
Proof.
  unfold apply_course. repeat (case_match; simpl; try done).
Qed.

Lemma upload_array_refused handler db req :
  (status (handler db req).2 ≠ 200 → (handler db req).1 = db) →
  status (upload_array handler db req).2 ≠ 200 →
  (upload_array handler db req).1 = db.
Proof. unfold upload_array. by destruct (files req). Qed.

Lemma protected_refused rt handler db req :
  (∀ req', status (handler db req').2 ≠ 200 → (handler db req').1 = db) →
  status (protected rt handler db req).2 ≠ 200 →
  (protected rt handler db req).1 = db.
Proof.
  intros H. unfold protected. destruct (auth rt req); [done | apply H].
Qed.

(** X3. A call that is not answered 200 or 201 leaves the store exactly as
    it was: no route writes and then reports a failure. *)
Theorem refused_calls_write_nothing (rt : Runtime) (db : DB) (c : Call)
    (H200 : status (serve rt db c).2 ≠ 200)
    (H201 : status (serve rt db c).2 ≠ 201) :
  (serve rt db c).1 = db.
Proof.
  destruct c; simpl in *.
  - apply signup_unchanged.
  - apply login_step.
  - apply protected_refused; [| done].
    intros req'. apply upload_array_refused, bio_refused.
  - unfold protected. destruct (auth rt req); [done |].
    unfold get_courses. apply discover_reads.
  - unfold protected. destruct (auth rt req); [done |].
    unfold get_user. apply discover_reads.
  - apply protected_refused; [apply apply_param_refused | done].
  - apply protected_refused; [apply apply_course_refused | done].
Qed.

(** X1. No call deletes a stored user, changes a stored email, username,
    password hash or phone number, or takes an entry out of
    [coursesApplied]: the list a user had is a prefix of the list the user
    has afterwards.  No call changes the course catalog. *)
Theorem serve_never_forgets (rt : Runtime) (db : DB) (c : Call)
    (j : ObjectId) (u : User.t)
    (Hu : users db !! j = Some u) :
  courses (serve rt db c).1 = courses db ∧
  ∃ u', users (serve rt db c).1 !! j = Some u' ∧
        User.email u' = User.email u ∧
        User.username u' = User.username u ∧
        User.password u' = User.password u ∧
        User.phonenumber u' = User.phonenumber u ∧
        User.coursesApplied u `prefix_of` User.coursesApplied u'.
Proof.
  destruct (serve_rewrites rt db c) as [-> | (i & v & v' & Hv & Hupd & ->)].
  - split; [done |]. by exists u.
  - split; [done |]. simpl. rewrite lookup_insert. case_decide as Hij.
    + subst j. assert (v = u) as -> by congruence.
      destruct (user_update_keeps u v' Hupd) as ((? & ? & ?) & ? & ?).
      by exists v'.
    + by exists u.
Qed.

(** X2. A call behind [auth] whose token verifies for the payload [p]
    leaves every user other than the one [p] names as stored; signup and
    login leave every stored user as stored. *)
Theorem serve_touches_only_caller (rt : Runtime) (db : DB) (c : Call)
    (j : ObjectId) :
  match request_of c with
  | Some req =>
      ∀ p, auth rt req = inr (with_user req p) → j ≠ Jwt.id p →
           users (serve rt db c).1 !! j = users db !! j
  | None =>
      ∀ u, users db !! j = Some u → users (serve rt db c).1 !! j = Some u
  end.
Proof.
  destruct (request_of c) as [req|] eqn:Hreq.
  - intros p Hauth Hj.
    destruct (serve_protected rt db c req Hreq) as (handler & -> & Hh).
    destruct (protected_rewrites rt handler db req Hh)
      as [<- | (p' & Hauth' & Hrw)]; [done |].
    rewrite Hauth in Hauth'. simplify_eq/=.
    destruct Hrw as [-> | (q & u & u' & [= <-] & _ & _ & ->)]; [done |].
    simpl. by rewrite lookup_insert_ne.
  - intros u Hu. destruct c; try done; simpl.
    + by rewrite signup_unchanged.
    + by rewrite login_step.
Qed.





(** *** POST /signup *)

(** No call ever stores a first user: the store the server starts with
    stays without users. *)
Lemma reachable_no_user rt db : reachable rt db → users db = ∅.
Proof.
  induction 1 as [catalog | db c _ IH]; [done |].
  destruct (serve_rewrites rt db c) as [-> | (i & u & u' & Hu & _)]; [done |].
  rewrite IH in Hu. by rewrite lookup_empty in Hu.
Qed.

(** C4. The document [new User(..)] makes has the default [{}] as
    [bioData], which has none of the paths [BioDataSchema] requires, so
    [newUser.save()] rejects it: a signup whose email or username is that
    of a stored user is answered 409, every other signup is answered 500,
    none is answered 201 and none adds a user.  Stored emails and usernames
    stay unique, and the server, started without users, never has one. *)
Theorem signup_never_creates (rt : Runtime) (now : N) (db : DB)
    (b : SignupBody.t) :
  let taken :=
    ∃ i u, users db !! i = Some u ∧
           (User.email u = SignupBody.email b ∨
            User.username u = SignupBody.username b) in
  let newUser :=
    {| User.email := SignupBody.email b;
       User.password := bcrypt_hash rt (SignupBody.password b);
       User.username := SignupBody.username b;
       User.phonenumber := SignupBody.phonenumber b;
       User.bioData := None;
       User.coursesApplied := [];
       User.applicationStatus := Pending |} in
  (taken →
   signup rt now db b = (db, respond 409 (Message "User already exists"))) ∧
  (¬ taken →
   signup rt now db b = (db, respond 500 (Error "Internal server error"))) ∧
  save db (newObjectId db) newUser = None ∧
  status (signup rt now db b).2 ≠ 201 ∧
  (signup rt now db b).1 = db ∧
  (unique_on User.email db → unique_on User.email (signup rt now db b).1) ∧
  (unique_on User.username db →
   unique_on User.username (signup rt now db b).1) ∧
  (reachable rt db → users db = ∅).
Proof.
  intros taken newUser.
  assert (Hfind : taken ↔
    findOne (email_or_username (SignupBody.email b)
                               (SignupBody.username b)) db ≠ None).
  { split.
    - intros (i & u & Hu & Hor) Hnone. rewrite findOne_None in Hnone.
      specialize (Hnone i u Hu). by apply bool_decide_eq_false in Hnone.
    - intros Hsome.
      destruct (findOne _ db) as [[i u]|] eqn:Hf; [| done].
      apply findOne_Some in Hf as [Hu Hacc].
      apply bool_decide_eq_true in Hacc. by exists i, u. }
  split; [| split; [| split; [| split; [| split; [| split; [| split]]]]]].
  - intros Htaken. apply Hfind in Htaken. unfold signup.
    by destruct (findOne _ db).
  - intros Hfree.
    destruct (signup_answer rt now db b) as [H409 | [_ H500]]; [| done].
    exfalso. apply Hfree, Hfind. unfold signup in H409.
    destruct (findOne _ db); [done |].
    rewrite save_invalid in H409 by apply create_invalid. done.
  - apply save_invalid. apply create_invalid.
  - destruct (signup_answer rt now db b) as [-> | [_ ->]]; simpl; lia.
  - apply signup_unchanged.
  - by rewrite signup_unchanged.
  - by rewrite signup_unchanged.
  - apply reachable_no_user.
Qed.

(** *** What the routes keep *)

(** X5. Every call keeps the stored users well formed: if in the store
    every [applicationStatus] is Pending or Under Review, every user
    Under Review has applied for at least one course, and stored bio data
    has a non-empty name and specialization, then the same holds of every
    user of the store the call leaves (no route sets Approved or
    Rejected). *)
Theorem well_formed_preserved (rt : Runtime) (db : DB) (c : Call)
    (i : ObjectId) (u : User.t)
    (Hdb : ∀ j v, users db !! j = Some v → well_formed v)
    (Hu : users (serve rt db c).1 !! i = Some u) :
  (User.applicationStatus u = Pending ∨
   User.applicationStatus u = UnderReview) ∧
  (User.applicationStatus u = UnderReview → User.coursesApplied u ≠ []) ∧
  (∀ b, User.bioData u = Some b →
        BioData.name b ≠ "" ∧ BioData.specialization b ≠ "").
Proof.
  change (well_formed u).
  destruct (serve_rewrites rt db c) as [Heq | (j & v & v' & Hv & Hupd & Heq)];
    rewrite Heq in Hu.
  - by apply (Hdb i).
  - simpl in Hu. rewrite lookup_insert in Hu. case_decide.
    + injection Hu as <-.
      apply (user_update_well_formed v v' Hupd), (Hdb j v Hv).
    + by apply (Hdb i).
Qed.

(** *** POST /login *)

(** With unique emails, the query of /login finds the user who has the
    email. *)
Lemma findOne_by_email db i u :
  unique_on User.email db → users db !! i = Some u →
  findOne (by_email (User.email u)) db = Some (i, u).
Proof.
  intros Huniq Hu.
  destruct (findOne (by_email (User.email u)) db) as [[j v]|] eqn:Hf.
  - apply findOne_Some in Hf as [Hv Hacc].
    apply bool_decide_eq_true in Hacc.
    assert (j = i) as -> by (by apply (Huniq j i v u)).
    congruence.
  - rewrite findOne_None in Hf. specialize (Hf i u Hu).
    unfold by_email in Hf. by rewrite bool_decide_eq_true_2 in Hf.
Qed.

(** X7. In a store where no two users share an email, a login served at
    the time [now] with the email of a stored user is judged against that
    user's hash: it is answered 200 with the token signed at [now] for
    that user's [_id] when [bcrypt.compare] accepts the password, and 400
    "Invalid credentials" when it does not; the store is left as it
    was. *)
Theorem login_identifies (rt : Runtime) (now : N) (db : DB) (i : ObjectId)
    (u : User.t) (pw : string)
    (Hunique : unique_on User.email db)
    (Hu : users db !! i = Some u) :
  login rt now db
        {| LoginBody.email := User.email u; LoginBody.password := pw |} =
    (db,
     if bcrypt_compare rt pw (User.password u)
     then respond 200 (Session "Login successful" (jwt_sign rt now i) i)
     else respond 400 (Error "Invalid credentials")).
Proof.
  unfold login. simpl. rewrite (findOne_by_email db i u Hunique Hu).
  by destruct (bcrypt_compare rt pw (User.password u)).
Qed.

(** X8. A login is answered 400 "User does not exist" exactly when no
    stored user has the email. *)
Theorem login_unknown_email (rt : Runtime) (now : N) (db : DB)
    (b : LoginBody.t) :
  login rt now db b = (db, respond 400 (Error "User does not exist")) ↔
  ∀ i u, users db !! i = Some u → User.email u ≠ LoginBody.email b.
Proof.
  unfold login. split.
  - destruct (findOne _ db) as [[j v]|] eqn:Hf.
    + destruct (bcrypt_compare rt _ _); intros [=].
    + intros _ i u Hu. rewrite findOne_None in Hf.
      specialize (Hf i u Hu). by apply bool_decide_eq_false in Hf.
  - intros Hnone.
    assert (findOne (by_email (LoginBody.email b)) db = None) as ->; [| done].
    apply findOne_None. intros i u Hu.
    apply bool_decide_eq_false. by apply (Hnone i u).
Qed.

(** *** The token in the header *)

(** A text without the separator is the first piece of itself, and of
    itself followed by the separator and anything. *)
Lemma split_first (sep : ascii) (tok : string) :
  occurs sep tok = false →
  head (Js.split sep tok) = Some tok ∧
  ∀ junk, head (Js.split sep (tok +:+ String sep junk)) = Some tok.
Proof.
  induction tok as [|c tok IH]; intros Hocc.
  - split; [done |]. intros junk. cbv [String.append]. simpl.
    by rewrite Ascii.eqb_refl.
  - simpl in Hocc. apply orb_false_iff in Hocc as [Hc Htok].
    destruct (IH Htok) as [IH1 IH2]. split.
    + simpl. rewrite Hc. destruct (Js.split sep tok); [done |].
      simpl in *. by injection IH1 as ->.
    + intros junk. specialize (IH2 junk).
      change (String c tok +:+ String sep junk)
        with (String c (tok +:+ String sep junk)).
      simpl. rewrite Hc.
      destruct (Js.split sep (tok +:+ String sep junk)); [done |].
      simpl in *. by injection IH2 as ->.
Qed.

(** X10. The middleware verifies the text between the first and the
    second space of the header: for a token without a space, the headers
    "Bearer <token>" and "Bearer <token> <anything>" are treated alike,
    the token alone being handed to [jwt.verify]. *)
Theorem auth_reads_second_word (rt : Runtime) (req : Request)
    (tok : string)
    (Htok : occurs " " tok = false)
    (Hheader :
       headers req !! "authorization" = Some ("Bearer " +:+ tok) ∨
       ∃ junk, headers req !! "authorization"
               = Some ("Bearer " +:+ (tok +:+ String " " junk))) :
  auth rt req =
    match jwt_verify rt (Some tok) with
    | Jwt.Decoded decoded => inr (with_user req decoded)
    | Jwt.Failed => inl (respond 401 (Error "Invalid or expired token"))
    | Jwt.Threw => inl (respond 500 (Error "Failed to authenticate token"))
    end.
Proof.
  destruct (split_first " " tok Htok) as [Hplain Hjunk].
  destruct Hheader as [Hh | [junk Hh]].
  - rewrite (auth_bearer rt req tok Hh), Hplain.
    by destruct (jwt_verify rt (Some tok)).
  - rewrite (auth_bearer rt req _ Hh), Hjunk.
    by destruct (jwt_verify rt (Some tok)).
Qed.

(** *** Submitting bio data again *)

(** X12. Bio data is overwritten, not merged: after two submissions
    answered 200 for the same user, the stored user is the original one
    with the bio data of the second request alone, certificates
    included. *)
Theorem bio_resubmission (rt : Runtime) (db db1 db2 : DB)
    (req1 req2 : Request) (res1 res2 : Response)
    (p : Jwt.payload) (u : User.t)
    (Hreq1 : user req1 = Some p)
    (Hreq2 : user req2 = Some p)
    (Hu : users db !! Jwt.id p = Some u)
    (Hfirst : bio rt db req1 = (db1, res1))
    (Hok1 : status res1 = 200)
    (Hsecond : bio rt db1 req2 = (db2, res2))
    (Hok2 : status res2 = 200) :
  users db2 !! Jwt.id p
    = Some (User.set_bioData (bio_of_request rt req2) u) ∧
  (∀ j, j ≠ Jwt.id p → users db2 !! j = users db !! j).
Proof.
  assert (Hone : ∀ d d' req res v,
    user req = Some p → users d !! Jwt.id p = Some v →
    bio rt d req = (d', res) → status res = 200 →
    d' = with_users d (<[Jwt.id p :=
           User.set_bioData (bio_of_request rt req) v]> (users d))).
  { intros d d' req res v Hr Hv Hbio Hok. unfold bio, findById in Hbio.
    destruct (negb _ || negb _ || negb _);
      [injection Hbio as <- <-; done |].
    rewrite Hr, Hv in Hbio.
    destruct (files req);
      [injection Hbio as <- <-; done | | injection Hbio as <- <-; done].
    destruct (save d _ _) as [d1|] eqn:Hs;
      [| injection Hbio as <- <-; done].
    apply save_Some in Hs as [_ ->]. by injection Hbio as <- _. }
  pose proof (Hone db db1 req1 res1 u Hreq1 Hu Hfirst Hok1) as ->.
  assert (Hu1 : users (with_users db (<[Jwt.id p :=
            User.set_bioData (bio_of_request rt req1) u]> (users db)))
          !! Jwt.id p = Some (User.set_bioData (bio_of_request rt req1) u))
    by (simpl; apply lookup_insert_eq).
  pose proof (Hone _ db2 req2 res2 _ Hreq2 Hu1 Hsecond Hok2) as ->.
  simpl. split.
  - by rewrite lookup_insert_eq.
  - intros j Hj. by rewrite !lookup_insert_ne.
Qed.

(** *** The two application routes together *)

Lemma hex_string_length s s' :
  hex_string s = Some s' → String.length s' = String.length s.
Proof.
  revert s'. induction s as [|c s IH]; intros s'; simpl.
  - by intros [= <-].
  - destruct (hex_lower c); [| done].
    destruct (hex_string s) as [r|]; [| done].
    intros [= <-]. simpl. by rewrite (IH r).
Qed.

Lemma castObjectId_result_nonempty c i : castObjectId c = Some i → i ≠ "".
Proof.
  intros Hcast. pose proof (castObjectId_length c i Hcast) as Hlen.
  unfold castObjectId in Hcast. rewrite Hlen in Hcast. simpl in Hcast.
  apply hex_string_length in Hcast. rewrite Hlen in Hcast.
  intros ->. discriminate.
Qed.

(** X13. The guard of /apply-course sees what /apply/:courseId stored:
    once a POST /apply/:courseId was answered 200, its [courseId] was cast
    to an identifier, and a POST /apply-course of the same user that names
    that identifier by its lower-case hexadecimal digits is answered 400
    and leaves the store as it is. *)
Theorem apply_then_apply_course_refused (db db1 : DB)
    (req1 : Request) (res1 : Response) (p : Jwt.payload) (courseId : string)
    (Hreq1 : user req1 = Some p)
    (Hfirst : apply_param courseId db req1 = (db1, res1))
    (Hok : status res1 = 200) :
  ∃ i, castObjectId courseId = Some i ∧
       ∀ req2, user req2 = Some p → body req2 !! "courseId" = Some i →
               apply_course db1 req2 =
                 (db1, respond 400
                         (Error "You have already applied for this course.")).
Proof.
  unfold apply_param, findById in Hfirst. rewrite Hreq1 in Hfirst.
  destruct (users db !! Jwt.id p) as [u|] eqn:Hu;
    [| injection Hfirst as <- <-; done].
  destruct (User.push_course courseId u) as [pushed|] eqn:Hpush;
    [| injection Hfirst as <- <-; done].
  simpl in Hfirst. destruct (save db _ _) as [d|] eqn:Hs;
    [| injection Hfirst as <- <-; done].
  apply save_Some in Hs as [_ ->]. injection Hfirst as <- _.
  apply push_course_Some in Hpush as (i & Hcast & ->).
  exists i. split; [done |]. intros req2 Hreq2 Hbody.
  pose proof (castObjectId_result_nonempty courseId i Hcast) as Hne.
  erewrite (apply_course_found _ req2 p _ i Hreq2);
    [| simpl; apply lookup_insert_eq | done | done].
  unfold includes. rewrite bool_decide_eq_true_2; [done |].
  simpl. apply elem_of_app. right. by apply list_elem_of_singleton.
Qed.

(** *** Eligibility and marks *)

Lemma lte_trans a b c :
  Js.lte a b = true → Js.lte b c = true → Js.lte a c = true.
Proof.
  destruct a as [|x| |], b as [|y| |], c as [|z| |]; simpl; try done.
  rewrite !Qle_bool_iff. apply Qle_trans.
Qed.

(** X15. Better marks never lose a course: every course found for a
    specialization with marks [m] is found with any marks [m'] that [m]
    is at most. *)
Theorem better_marks_more_courses (db : DB) (s : string) (m m' : Js.number)
    (Hm : Js.lte m m' = true) :
  ∀ d, d ∈ Course_find db s m → d ∈ Course_find db s m'.
Proof.
  intros [i c]. rewrite !elem_of_Course_find, !eligible_spec.
  intros (Hc & Hs & Hle). repeat split; try done.
  by apply (lte_trans _ m).
Qed.

Lemma populate_cons db i refs :
  populate db (i :: refs) =
    match courses db !! i with
    | Some c => (i, c) :: populate db refs
    | None => populate db refs
    end.
Proof. unfold populate. simpl. by destruct (courses db !! i). Qed.

Lemma length_populate db refs : length (populate db refs) ≤ length refs.
Proof.
  induction refs as [|i refs IH]; [done |].
  rewrite populate_cons. destruct (courses db !! i); simpl; lia.
Qed.

(** X16. An application for a course the catalog does not have shows in
    GET /user and not in GET /courses: /user lists the bare reference,
    while no element of the [appliedCourses] of /courses names it. *)
Theorem dangling_application (db : DB) (req : Request) (p : Jwt.payload)
    (u : User.t) (b : BioData.t) (courseId : ObjectId)
    (Hreq : user req = Some p)
    (Hu : users db !! Jwt.id p = Some u)
    (Hb : User.bioData u = Some b)
    (Hs : BioData.specialization b ≠ "")
    (Happlied : courseId ∈ User.coursesApplied u)
    (Hgone : courses db !! courseId = None) :
  ∃ available applied_courses applied_user,
    get_courses db req
      = (db, respond 200 (Courses available applied_courses)) ∧
    get_user db req = (db, respond 200 (Courses available applied_user)) ∧
    Raw courseId ∈ applied_user ∧
    (∀ c, Populated (courseId, c) ∉ applied_courses) ∧
    (Raw courseId ∉ applied_courses) ∧
    length applied_courses < length applied_user.
Proof.
  assert (Js.truthy (Some (BioData.specialization b)) = true) as Ht
    by (apply truthy_Some; eauto).
  eexists _, _, _. unfold get_courses, get_user, discover, findById.
  rewrite Hreq, Hu, Hb, Ht. simpl.
  split; [done |]. split; [done |]. split; [| split; [| split]].
  - apply list_elem_of_fmap. by exists courseId.
  - intros c (d & Heq & Hd)%list_elem_of_fmap.
    injection Heq as <-.
    apply elem_of_populate in Hd as [_ Hd]. congruence.
  - by intros (d & [=] & _)%list_elem_of_fmap.
  - rewrite !length_fmap. clear -Happlied Hgone.
    induction (User.coursesApplied u) as [|i refs IH];
      [by apply elem_of_nil in Happlied |].
    rewrite populate_cons. apply elem_of_cons in Happlied as [<- | Hin].
    + rewrite Hgone. simpl. pose proof (length_populate db refs). lia.
    + specialize (IH Hin). destruct (courses db !! i); simpl; lia.
Qed.

(** *** The names of uploaded files *)

Lemma occurs_app c a b : occurs c (a +:+ b) = occurs c a || occurs c b.
Proof.
  induction a as [|x a IH]; [done |].
  change (String x a +:+ b) with (String x (a +:+ b)). simpl.
  by rewrite IH, orb_assoc.
Qed.

Lemma occurs_cons c x s : occurs c (String x s) = Ascii.eqb x c || occurs c s.
Proof. reflexivity. Qed.

Lemma whitespace_not_digit c :
  storage.whitespace c = true →
  (48 <=? nat_of_ascii c) && (nat_of_ascii c <=? 57) = false.
Proof.
  unfold storage.whitespace. intros H.
  apply andb_false_iff.
  destruct (Nat.leb_spec 48 (nat_of_ascii c)); [right | by left].
  apply Nat.leb_gt.
  apply orb_true_iff in H as [H | H%Nat.eqb_eq]; [| lia].
  apply orb_true_iff in H as [H | H%Nat.eqb_eq]; [| lia].
  apply andb_true_iff in H as [_ H%Nat.leb_le]. lia.
Qed.

Lemma whitespace_not_hyphen c :
  storage.whitespace c = true → Ascii.eqb "-" c = false.
Proof.
  intros H. apply Ascii.eqb_neq. intros <-. by vm_compute in H.
Qed.

Lemma decimal_cons c s :
  decimal (String c s) =
  (48 <=? nat_of_ascii c) && (nat_of_ascii c <=? 57) && decimal s.
Proof. reflexivity. Qed.

Lemma decimal_no_whitespace s : decimal s = true → no_whitespace s.
Proof.
  intros Hs c Hc. induction s as [|x s IH]; [done |].
  rewrite decimal_cons in Hs. apply andb_true_iff in Hs as [Hx Hs].
  rewrite occurs_cons, (IH Hs), orb_false_r. apply Ascii.eqb_neq. intros Heq.
  rewrite Heq in Hx. by rewrite (whitespace_not_digit c Hc) in Hx.
Qed.

Lemma pretty_N_char_digit k s :
  decimal (String (pretty_N_char k) s) = decimal s.
Proof.
  unfold pretty_N_char. by repeat case_match.
Qed.

Lemma pretty_N_go_decimal x s :
  decimal s = true → decimal (pretty_N_go x s) = true.
Proof.
  revert s. induction (N.lt_wf_0 x) as [x _ IH]; intros s Hs.
  assert (x = 0 ∨ 0 < x)%N as [-> | Hx] by lia.
  - by rewrite pretty_N_go_0.
  - rewrite pretty_N_go_step by done. apply IH.
    + by apply N.div_lt.
    + by rewrite pretty_N_char_digit.
Qed.

Lemma pretty_decimal (n : N) : decimal (pretty n) = true.
Proof.
  unfold pretty, pretty_N. case_decide; [done |].
  by apply pretty_N_go_decimal.
Qed.

Lemma replace_whitespace_clean in_run s :
  no_whitespace (storage.replace_whitespace in_run s).
Proof.
  intros c Hc. revert in_run. induction s as [|x s IH]; intros in_run.
  - done.
  - simpl. destruct (storage.whitespace x) eqn:Hx.
    + destruct in_run; [apply IH |].
      by rewrite occurs_cons, (whitespace_not_hyphen c Hc), IH.
    + rewrite occurs_cons, IH, orb_false_r.
      apply Ascii.eqb_neq. intros Heq. congruence.
Qed.

Lemma replace_whitespace_id in_run s :
  no_whitespace s → storage.replace_whitespace in_run s = s.
Proof.
  revert in_run. induction s as [|x s IH]; intros in_run Hs; [done |].
  simpl. destruct (storage.whitespace x) eqn:Hx.
  - specialize (Hs x Hx). rewrite occurs_cons in Hs.
    by rewrite Ascii.eqb_refl in Hs.
  - f_equal. apply IH. intros c Hc. specialize (Hs c Hc).
    rewrite occurs_cons in Hs. by apply orb_false_iff in Hs as [_ ?].
Qed.

(** Digits, a hyphen and a rest: the digits and the rest are determined. *)
Lemma decimal_hyphen_inj d1 d2 s1 s2 :
  decimal d1 = true → decimal d2 = true →
  d1 +:+ String "-" s1 = d2 +:+ String "-" s2 → d1 = d2 ∧ s1 = s2.
Proof.
  revert d2. induction d1 as [|x d1 IH]; intros [|y d2] H1 H2 Heq.
  - by injection Heq as ->.
  - exfalso. injection Heq as <- _. by vm_compute in H2.
  - exfalso. injection Heq as -> _. by vm_compute in H1.
  - change (String x (d1 +:+ String "-" s1) = String y (d2 +:+ String "-" s2))
      in Heq.
    injection Heq as -> Heq. rewrite decimal_cons in H1, H2.
    apply andb_true_iff in H1 as [_ H1]. apply andb_true_iff in H2 as [_ H2].
    destruct (IH d2 H1 H2 Heq) as [-> ->]. done.
Qed.

(** X17. The name under which an upload is stored, and so every entry of
    [certificates] that comes from it, has no whitespace character. *)
Theorem stored_name_no_whitespace (now : N) (original : string)
    (c : ascii)
    (Hc : storage.whitespace c = true) :
  occurs c (filename (stored_file now original)) = false.
Proof.
  simpl. unfold storage.filename. rewrite !occurs_app.
  rewrite (decimal_no_whitespace _ (pretty_decimal now) c Hc).
  rewrite (replace_whitespace_clean false original c Hc).
  change (occurs c "-") with (Ascii.eqb "-" c || false).
  by rewrite (whitespace_not_hyphen c Hc).
Qed.

(** X18. Two uploads get the same stored name exactly when they arrive in
    the same millisecond and their original names agree once every run of
    whitespace is a hyphen. *)
Theorem stored_name_collision (now1 now2 : N) (original1 original2 : string) :
  storage.filename now1 original1 = storage.filename now2 original2 ↔
  now1 = now2 ∧
  storage.replace_whitespace false original1
    = storage.replace_whitespace false original2.
Proof.
  unfold storage.filename. split.
  - intros Heq.
    change ("-" +:+ storage.replace_whitespace false original1)
      with (String "-" (storage.replace_whitespace false original1)) in Heq.
    change ("-" +:+ storage.replace_whitespace false original2)
      with (String "-" (storage.replace_whitespace false original2)) in Heq.
    apply decimal_hyphen_inj in Heq as [Hnow Hname];
      [| apply pretty_decimal | apply pretty_decimal].
    split; [| done]. by apply (inj pretty).
  - by intros [-> ->].
Qed.

(** X19. A name without whitespace is stored as it is behind the
    timestamp, and replacing the whitespace of a name twice is the same as
    doing it once: at the same millisecond a name and its hyphenated form
    are stored under one name. *)
Theorem stored_name_fixed (now : N) (original : string) :
  (no_whitespace original →
   storage.filename now original = pretty now +:+ "-" +:+ original) ∧
  storage.filename now (storage.replace_whitespace false original)
    = storage.filename now original.
Proof.
  unfold storage.filename. split.
  - intros Hclean. by rewrite replace_whitespace_id.
  - rewrite (replace_whitespace_id false
               (storage.replace_whitespace false original)); [done |].
    apply replace_whitespace_clean.
Qed.

(** ** The theorems at work on the sample store *)

Lemma sample_well_formed j v : users Sample.db !! j = Some v → well_formed v.
Proof.
  unfold Sample.db. simpl. intros Hv.
  apply lookup_insert_Some in Hv as [[_ <-] | [_ Hv]].
  - split; [by left | split; [discriminate |]].
    intros b [= <-]. by split.
  - apply lookup_singleton_Some in Hv as [_ <-].
    split; [by left | split; discriminate].
Qed.

Lemma sample_unique_email : unique_on User.email Sample.db.
Proof.
  intros i j u v Hu Hv. unfold Sample.db in Hu, Hv. simpl in Hu, Hv.
  apply lookup_insert_Some in Hu as [[<- <-] | [Hi Hu]];
    apply lookup_insert_Some in Hv as [[<- <-] | [Hj Hv]]; try done.
  - apply lookup_singleton_Some in Hv as [_ <-]. discriminate.
  - apply lookup_singleton_Some in Hu as [_ <-]. discriminate.
  - apply lookup_singleton_Some in Hu as [<- _].
    apply lookup_singleton_Some in Hv as [<- _]. done.
Qed.

(** alice, who has 80 marks in Biology, is offered Botany (70) and not
    Genetics (90). *)
Lemma discovery_exact_witness :
  ∃ available applied,
    get_courses Sample.db Sample.apply_request
      = (Sample.db, respond 200 (Courses available applied)) ∧
    (Sample.botany_id, Sample.botany) ∈ available ∧
    ((Sample.genetics_id, Sample.genetics) ∉ available) ∧
    NoDup available.
Proof.
  destruct (discovery_exact Sample.db Sample.apply_request
              Sample.alice_payload Sample.alice Sample.alice_bio get_courses)
    as (available & applied & Hcall & _ & Hfinite & Hnodup & _).
  - by left.
  - reflexivity.
  - vm_compute; reflexivity.
  - reflexivity.
  - discriminate.
  - exists available, applied.
    split; [exact Hcall |]. split; [| split; [| exact Hnodup]].
    + apply (Hfinite Sample.botany_id Sample.botany
               (inject_Z 70) (inject_Z 80)); [reflexivity | reflexivity |].
      split; [vm_compute; reflexivity |]. split; [reflexivity |].
      apply Qle_bool_iff. reflexivity.
    + intros Hin.
      apply (Hfinite Sample.genetics_id Sample.genetics
               (inject_Z 90) (inject_Z 80)) in Hin;
        [| reflexivity | reflexivity].
      destruct Hin as (_ & _ & Hle). apply Qle_bool_iff in Hle.
      discriminate.
Defined.





(** The first signup, on the store without users, is answered 500 and
    stores nobody; on the sample store alice's email is taken. *)
Lemma signup_never_creates_witness :
  signup Sample.rt 0 Sample.db0 Sample.alice_signup =
    (Sample.db0, respond 500 (Error "Internal server error")) ∧
  signup Sample.rt 0 Sample.db Sample.alice_signup =
    (Sample.db, respond 409 (Message "User already exists")).
Proof.
  split.
  - destruct (signup_never_creates Sample.rt 0 Sample.db0
                Sample.alice_signup) as (_ & H & _).
    apply H. intros (i & u & Hu & _).
    simpl in Hu. rewrite lookup_empty in Hu. discriminate.
  - destruct (signup_never_creates Sample.rt 0 Sample.db
                Sample.alice_signup) as (H & _).
    apply H. exists Sample.alice_id, Sample.alice.
    split; [vm_compute; reflexivity | left; reflexivity].
Defined.

(** A header that carries alice's token lets the request through; a
    request without the header is stopped. *)
Lemma auth_classes_witness :
  auth Sample.rt Sample.bio_request
    = inr (with_user Sample.bio_request Sample.alice_payload) ∧
  auth Sample.rt
       {| headers := ∅; body := ∅; files := NotMultipart; user := None |}
    = inl (respond 403 (Error "No token provided or incorrect format")).
Proof.
  split.
  - destruct (auth_classes Sample.rt Sample.bio_request) as (_ & H & _).
    assert (Hh : headers Sample.bio_request !! "authorization"
                 = Some ("Bearer " +:+ ("t:" +:+ Sample.alice_id +:+ ".0")))
      by (vm_compute; reflexivity).
    specialize (H _ Hh). vm_compute in H. vm_compute. exact (proj1 H).
  - destruct (auth_classes Sample.rt
                {| headers := ∅; body := ∅; files := NotMultipart;
                   user := None |})
      as (H & _).
    apply H. intros t. discriminate.
Defined.



(** A submission without marks reaches [save] with [NaN] marks, and
    [save] rejects it. *)
Lemma bio_marks_not_validated_witness :
  let b := bio_of_request Sample.rt Sample.no_marks_request in
  status (bio Sample.rt Sample.db Sample.no_marks_request).2 ≠ 400 ∧
  BioData.marks10th b = Js.NaN ∧ BioData.marks12th b = Js.NaN ∧
  bio Sample.rt Sample.db Sample.no_marks_request =
    (Sample.db, respond 500 (Error "Internal server error")).
Proof.
  destruct (bio_marks_not_validated Sample.rt Sample.db
              Sample.no_marks_request) as (H400 & H10 & H12 & Hsave).
  - reflexivity.
  - reflexivity.
  - reflexivity.
  - left. reflexivity.
  - split; [exact H400 |]. split; [by apply H10 |]. split; [by apply H12 |].
    destruct (Hsave Sample.alice_payload Sample.alice) as (_ & _ & _ & H500).
    + reflexivity.
    + vm_compute; reflexivity.
    + exact H500.
Defined.

(** The two discovery routes on the store where alice has applied for
    Botany: the same [availableCourses], the course document against the
    bare reference in [appliedCourses]. *)
Example discovery_routes_on_sample :
  get_courses Sample.db_applied Sample.apply_request =
    (Sample.db_applied,
     respond 200
       (Courses [(Sample.botany_id, Sample.botany)]
                [Populated (Sample.botany_id, Sample.botany)])) ∧
  get_user Sample.db_applied Sample.apply_request =
    (Sample.db_applied,
     respond 200
       (Courses [(Sample.botany_id, Sample.botany)]
                [Raw Sample.botany_id])).
Proof. split; vm_compute; reflexivity. Qed.

(** A token that verifies for an identifier nobody has: its bearer is told
    to complete a bio, as carol is, who has none. *)
Lemma unknown_user_is_bio_incomplete_witness :
  users Sample.db !! Sample.ghost_id = None ∧
  serve Sample.rt Sample.db (GetCourses Sample.ghost_request) =
    (Sample.db,
     respond 400
       (Error "Please complete your bio data before applying for courses.")) ∧
  get_courses Sample.db Sample.carol_request =
    (Sample.db,
     respond 400
       (Error "Please complete your bio data before applying for courses.")).
Proof.
  split; [vm_compute; reflexivity |].
  destruct (unknown_user_is_bio_incomplete Sample.rt Sample.db
              Sample.ghost_request ("t:" +:+ Sample.ghost_id +:+ ".0")
              {| Jwt.id := Sample.ghost_id |})
    as (Hc & _).
  - reflexivity.
  - vm_compute; reflexivity.
  - vm_compute; reflexivity.
  - split; [exact Hc |]. vm_compute. reflexivity.
Defined.

(** The answer to alice's /apply/:courseId carries her stored hash. *)
Lemma apply_param_discloses_hash_witness :
  ∃ p u u0,
    user Sample.apply_request = Some p ∧
    json (apply_param Sample.botany_id Sample.db Sample.apply_request).2
      = Applied "Course applied successfully" (Jwt.id p, u) ∧
    users Sample.db !! Jwt.id p = Some u0 ∧
    User.password u = User.password u0 ∧
    User.password u = bcrypt_hash Sample.rt "pw".
Proof.
  destruct (apply_param_discloses_hash Sample.db
              (apply_param Sample.botany_id Sample.db Sample.apply_request).1
              Sample.apply_request Sample.botany_id
              (apply_param Sample.botany_id Sample.db Sample.apply_request).2)
    as (p & u & u0 & Hp & Hjson & _ & Hu0 & Hpw & _ & _ & _ & _ & Hhash).
  - apply surjective_pairing.
  - reflexivity.
  - exists p, u, u0.
    split; [exact Hp |]. split; [exact Hjson |].
    split; [exact Hu0 |]. split; [exact Hpw |].
    apply (Hhash Sample.rt "pw").
    vm_compute in Hp. injection Hp as <-.
    vm_compute in Hu0. injection Hu0 as <-. vm_compute; reflexivity.
Defined.

(** *** The further properties at work on the sample store *)

Lemma serve_never_forgets_witness :
  ∃ u', users (serve Sample.rt Sample.db
                 (PostSignup 0 Sample.alice_signup)).1
          !! Sample.alice_id = Some u' ∧
        User.password u' = User.password Sample.alice ∧
        User.coursesApplied Sample.alice `prefix_of` User.coursesApplied u'.
Proof.
  destruct (serve_never_forgets Sample.rt Sample.db
              (PostSignup 0 Sample.alice_signup)
              Sample.alice_id Sample.alice)
    as (_ & u' & Hu' & _ & _ & Hpw & _ & Hprefix).
  - vm_compute; reflexivity.
  - exists u'. split; [exact Hu' |]. split; [exact Hpw | exact Hprefix].
Defined.

Lemma refused_calls_write_nothing_witness :
  status (serve Sample.rt Sample.db (PostSignup 0 Sample.alice_signup)).2
    = 409 ∧
  (serve Sample.rt Sample.db (PostSignup 0 Sample.alice_signup)).1
    = Sample.db.
Proof.
  split; [vm_compute; reflexivity |].
  apply refused_calls_write_nothing.
  - vm_compute. discriminate.
  - vm_compute. discriminate.
Defined.

Lemma well_formed_preserved_witness :
  let u := User.set_bioData Sample.new_bio Sample.alice in
  users (serve Sample.rt Sample.db (PostBio Sample.bio_request)).1
    !! Sample.alice_id = Some u ∧
  (User.applicationStatus u = Pending ∨
   User.applicationStatus u = UnderReview) ∧
  (User.applicationStatus u = UnderReview → User.coursesApplied u ≠ []) ∧
  (∀ b, User.bioData u = Some b →
        BioData.name b ≠ "" ∧ BioData.specialization b ≠ "").
Proof.
  split; [vm_compute; reflexivity |].
  apply (well_formed_preserved Sample.rt Sample.db
           (PostBio Sample.bio_request) Sample.alice_id).
  - apply sample_well_formed.
  - vm_compute; reflexivity.
Defined.

Lemma login_identifies_witness :
  login Sample.rt 7 Sample.db
    {| LoginBody.email := "a@x.com"; LoginBody.password := "pw" |} =
    (Sample.db,
     respond 200 (Session "Login successful"
                          ("t:" +:+ Sample.alice_id +:+ ".7")
                          Sample.alice_id)) ∧
  login Sample.rt 7 Sample.db
    {| LoginBody.email := "a@x.com"; LoginBody.password := "pw2" |} =
    (Sample.db, respond 400 (Error "Invalid credentials")).
Proof.
  split.
  - apply (login_identifies Sample.rt 7 Sample.db Sample.alice_id
             Sample.alice "pw").
    + apply sample_unique_email.
    + vm_compute; reflexivity.
  - apply (login_identifies Sample.rt 7 Sample.db Sample.alice_id
             Sample.alice "pw2").
    + apply sample_unique_email.
    + vm_compute; reflexivity.
Defined.

Lemma auth_reads_second_word_witness :
  auth Sample.rt Sample.trailing_request
    = inr (with_user Sample.trailing_request Sample.alice_payload).
Proof.
  rewrite (auth_reads_second_word Sample.rt Sample.trailing_request
             ("t:" +:+ Sample.alice_id +:+ ".0")).
  - reflexivity.
  - vm_compute; reflexivity.
  - right. exists "and more". vm_compute; reflexivity.
Defined.

(** alice submits her bio data twice; the second submission, without a
    file, leaves her without certificates. *)
Lemma bio_resubmission_witness :
  let db1 := (bio Sample.rt Sample.db Sample.bio_request).1 in
  let db2 := (bio Sample.rt db1 Sample.second_bio_request).1 in
  users db2 !! Sample.alice_id
    = Some (User.set_bioData
              (bio_of_request Sample.rt Sample.second_bio_request)
              Sample.alice) ∧
  BioData.certificates (bio_of_request Sample.rt Sample.second_bio_request)
    = [].
Proof.
  split; [| reflexivity].
  apply (bio_resubmission Sample.rt Sample.db
           (bio Sample.rt Sample.db Sample.bio_request).1
           (bio Sample.rt (bio Sample.rt Sample.db Sample.bio_request).1
                Sample.second_bio_request).1
           Sample.bio_request Sample.second_bio_request
           (bio Sample.rt Sample.db Sample.bio_request).2
           (bio Sample.rt (bio Sample.rt Sample.db Sample.bio_request).1
                Sample.second_bio_request).2
           Sample.alice_payload Sample.alice).
  - reflexivity.
  - reflexivity.
  - vm_compute; reflexivity.
  - apply surjective_pairing.
  - vm_compute; reflexivity.
  - apply surjective_pairing.
  - vm_compute; reflexivity.
Defined.

(** alice applies for Botany through /apply/:courseId, spelling the
    identifier in upper case; /apply-course then refuses Botany. *)
Lemma apply_then_apply_course_refused_witness :
  apply_param Sample.botany_upper Sample.db Sample.apply_request =
    (Sample.db_applied,
     respond 200 (Applied "Course applied successfully"
                          (Sample.alice_id, Sample.alice_applied))) ∧
  apply_course Sample.db_applied Sample.apply_request =
    (Sample.db_applied,
     respond 400 (Error "You have already applied for this course.")).
Proof.
  split; [vm_compute; reflexivity |].
  destruct (apply_then_apply_course_refused Sample.db Sample.db_applied
              Sample.apply_request
              (apply_param Sample.botany_upper Sample.db
                           Sample.apply_request).2
              Sample.alice_payload Sample.botany_upper)
    as (i & Hcast & Hrefused).
  - reflexivity.
  - vm_compute; reflexivity.
  - reflexivity.
  - apply Hrefused; [reflexivity |].
    vm_compute in Hcast. injection Hcast as <-. reflexivity.
Defined.

Lemma better_marks_more_courses_witness :
  (Sample.botany_id, Sample.botany)
    ∈ Course_find Sample.db "Biology" (Js.Finite (inject_Z 80)).
Proof.
  apply (better_marks_more_courses Sample.db "Biology"
           (Js.Finite (inject_Z 70))).
  - reflexivity.
  - apply elem_of_Course_find. split; [vm_compute; reflexivity | reflexivity].
Defined.

Lemma dangling_application_witness :
  ∃ available applied_courses applied_user,
    get_courses Sample.db_dangling Sample.apply_request
      = (Sample.db_dangling,
         respond 200 (Courses available applied_courses)) ∧
    get_user Sample.db_dangling Sample.apply_request
      = (Sample.db_dangling, respond 200 (Courses available applied_user)) ∧
    Raw Sample.unlisted_id ∈ applied_user ∧
    (∀ c, Populated (Sample.unlisted_id, c) ∉ applied_courses) ∧
    (Raw Sample.unlisted_id ∉ applied_courses) ∧
    length applied_courses < length applied_user.
Proof.
  apply (dangling_application Sample.db_dangling Sample.apply_request
           Sample.alice_payload Sample.alice_dangling Sample.alice_bio).
  - reflexivity.
  - vm_compute; reflexivity.
  - reflexivity.
  - discriminate.
  - apply list_elem_of_here.
  - vm_compute; reflexivity.
Defined.

Lemma stored_name_no_whitespace_witness :
  occurs " " (filename (stored_file 1700000000000 "my cert.pdf")) = false.
Proof.
  apply stored_name_no_whitespace. reflexivity.
Defined.
